(** * FgG ArtAssist: progress tracking and batch orchestration

    A shallow embedding of the progress-tracking core of [poll_status] and of
    the two batch generators [cleanup_sketch] and [fix_face_only] of
    [fgg_art_assist.py], with the properties the design document states about
    them.

    Python floats are IEEE 754 binary64 numbers: they are modelled by Rocq's
    primitive floats, so every concrete value below is the value the
    interpreter computes.  Python integers are unbounded: they are modelled
    by [Z]. *)

From Stdlib Require Import ZArith Floats Bool List String Lia.
Import ListNotations.

Set Warnings "-inexact-float".

(* ================================================================== *)
(** * Python primitives used by the program *)
(* ================================================================== *)

Module Py.

Local Open Scope float_scope.

(** [max(a, b)] keeps its first argument unless the second is strictly
    greater; [min(a, b)] keeps its first argument unless the second is
    strictly smaller.  A NaN second argument is therefore never chosen. *)
Definition max (a b : float) : float := if a <? b then b else a.
Definition min (a b : float) : float := if b <? a then b else a.

(** The correctly rounded (half to even) binary64 value of an integer. *)
Definition Z2float (z : Z) : float :=
  SF2Prim (binary_normalize prec emax z 0 false).

(** First integer magnitude whose rounding leaves the binary64 range. *)
Definition float_overflow_bound : Z := 2 ^ 1024 - 2 ^ 970.

(** Implicit conversion of an [int] operand in mixed arithmetic
    ([int + float], [float / int]).  [None] is [OverflowError]. *)
Definition float_of_int (z : Z) : option float :=
  if (Z.abs z <? float_overflow_bound)%Z then Some (Z2float z) else None.

(** [int(x)] on a float: truncation toward zero.  [None] is the
    [ValueError] / [OverflowError] raised on NaN and infinities. *)
Definition int_of_float (x : float) : option Z :=
  match Prim2SF x with
  | S754_zero _ => Some 0%Z
  | S754_finite s m e =>
      let a := Z.shiftl (Zpos m) e in
      Some (if s then (- a)%Z else a)
  | S754_infinity _ | S754_nan => None
  end.

(** [x or d]: the default replaces a missing ([None]) or falsy value. *)
Definition or_float (x : option float) (d : float) : float :=
  match x with
  | Some v => if v =? 0 then d else v
  | None => d
  end.

Definition or_int (x : option Z) (d : Z) : Z :=
  match x with
  | Some v => if (v =? 0)%Z then d else v
  | None => d
  end.

(** Sequencing of computations that may raise. *)
Definition bind {A B : Type} (m : option A) (k : A -> option B) : option B :=
  match m with
  | Some a => k a
  | None => None
  end.

End Py.

Notation "x <- m ;; k" := (Py.bind m (fun x => k))
  (at level 61, m at next level, right associativity).

(* ================================================================== *)
(** * Shared batch state (the module-level globals) *)
(* ================================================================== *)

(** [CURRENT_TASK] is [None], ['cleanup'] or ['face_fix']. *)
Inductive task : Type := cleanup | face_fix.

Record BatchState : Type := mkBatchState {
  CURRENT_TASK : option task;
  CURRENT_BATCH_INDEX : Z;
  TOTAL_BATCH_COUNT : Z;
  EXPECTED_JOB_COUNT : Z;
  LAST_BATCH_INDEX : Z;
  LAST_PROGRESS : float
}.

(** The values the globals are given when the module is loaded. *)
Definition initial_state : BatchState :=
  {| CURRENT_TASK := None;
     CURRENT_BATCH_INDEX := 0;
     TOTAL_BATCH_COUNT := 1;
     EXPECTED_JOB_COUNT := 1;
     LAST_BATCH_INDEX := -1;
     LAST_PROGRESS := 0%float |}.

Definition set_CURRENT_TASK (t : option task) (g : BatchState) : BatchState :=
  {| CURRENT_TASK := t;
     CURRENT_BATCH_INDEX := CURRENT_BATCH_INDEX g;
     TOTAL_BATCH_COUNT := TOTAL_BATCH_COUNT g;
     EXPECTED_JOB_COUNT := EXPECTED_JOB_COUNT g;
     LAST_BATCH_INDEX := LAST_BATCH_INDEX g;
     LAST_PROGRESS := LAST_PROGRESS g |}.

Definition set_CURRENT_BATCH_INDEX (i : Z) (g : BatchState) : BatchState :=
  {| CURRENT_TASK := CURRENT_TASK g;
     CURRENT_BATCH_INDEX := i;
     TOTAL_BATCH_COUNT := TOTAL_BATCH_COUNT g;
     EXPECTED_JOB_COUNT := EXPECTED_JOB_COUNT g;
     LAST_BATCH_INDEX := LAST_BATCH_INDEX g;
     LAST_PROGRESS := LAST_PROGRESS g |}.

(* ================================================================== *)
(** * [poll_status]: normalizer and aggregator *)
(* ================================================================== *)

Module Poll.

Local Open Scope float_scope.

(** The fields [poll_status] reads from the body of
    [GET /sdapi/v1/progress]; [None] is an absent key or a JSON null
    (for the two job fields also an absent ['state'] object). *)
Record progress_json : Type := mkProgress {
  progress : option float;
  job_count : option Z;
  job_no : option Z
}.

(** What one poll obtains from the server.  [NoProgress] covers every way
    in which the body of the [try] block is left without a 200 answer:
    the server is not up, the request raised, or the status is not 200. *)
Inductive poll_reply : Type :=
| NoProgress
| Progress200 (data : progress_json).

(** Lines 325-328: a stale nonzero [job_no] on the first image. *)
Definition guard_job_no (g : BatchState) (api_progress : float) (job_no : Z) : Z :=
  if (CURRENT_BATCH_INDEX g =? 0)%Z && (api_progress <? 0.05) && (job_no >? 0)%Z
  then 0%Z else job_no.

(** Lines 335-343: progress of the current image before the clamp.
    [job_no] is the value left by the guard. *)
Definition raw_image_progress (g : BatchState)
           (api_progress : float) (job_count job_no : Z) : option float :=
  match CURRENT_TASK g with
  | Some face_fix =>
      if (job_no =? 0)%Z then Some 0.0
      else Some ((api_progress - 0.5) / 0.5)
  | _ =>
      let actual_job_count := Z.max job_count (EXPECTED_JOB_COUNT g) in
      let safe_job_no := Z.min job_no (actual_job_count - 1) in
      n <- Py.float_of_int safe_job_no ;;
      d <- Py.float_of_int (Z.max 1 actual_job_count) ;;
      Some ((n + api_progress) / d)
  end.

(** Line 345. *)
Definition clamp_unit (x : float) : float := Py.max 0.0 (Py.min 1.0 x).

(** The Job Status Normalizer: lines 325-345. *)
Definition current_image_progress (g : BatchState)
           (api_progress : float) (job_count job_no : Z) : option float :=
  p <- raw_image_progress g api_progress job_count
         (guard_job_no g api_progress job_no) ;;
  Some (clamp_unit p).

(** Line 348. *)
Definition raw_percent (g : BatchState) (image_progress : float) : option float :=
  i <- Py.float_of_int (CURRENT_BATCH_INDEX g) ;;
  n <- Py.float_of_int (Z.max 1 (TOTAL_BATCH_COUNT g)) ;;
  Some ((i + image_progress) / n * 100.0).

(** Lines 351-364: the value accepted for this poll. *)
Definition current_percent (g : BatchState) (raw : float) : float :=
  if (LAST_BATCH_INDEX g =? CURRENT_BATCH_INDEX g)%Z then
    if raw <? LAST_PROGRESS g then
      let delta := LAST_PROGRESS g - raw in
      if delta <? 10.0 then LAST_PROGRESS g else raw
    else raw
  else raw.

(** Line 367. *)
Definition display_percent (current : float) : float :=
  Py.min 99.0 (Py.max 0.0 current).

(** The Batch Progress Aggregator on an already computed raw percent:
    lines 351-369.  [LAST_BATCH_INDEX] is assigned only in the branch of a
    new image, where it receives [CURRENT_BATCH_INDEX]. *)
Definition aggregate (g : BatchState) (raw : float) : BatchState :=
  {| CURRENT_TASK := CURRENT_TASK g;
     CURRENT_BATCH_INDEX := CURRENT_BATCH_INDEX g;
     TOTAL_BATCH_COUNT := TOTAL_BATCH_COUNT g;
     EXPECTED_JOB_COUNT := EXPECTED_JOB_COUNT g;
     LAST_BATCH_INDEX :=
       if (LAST_BATCH_INDEX g =? CURRENT_BATCH_INDEX g)%Z
       then LAST_BATCH_INDEX g else CURRENT_BATCH_INDEX g;
     LAST_PROGRESS := display_percent (current_percent g raw) |}.

(** The label suffix of the running button: image number, batch size and
    integer percent. *)
Record job_info : Type := mkJobInfo {
  info_image : Z;
  info_total : Z;
  info_percent : Z
}.

(** Lines 319-370 for one 200 answer.  [None] means that an exception left
    the [try] block before any global was assigned. *)
Definition progress_step (g : BatchState) (data : progress_json)
  : option (BatchState * option job_info) :=
  let api_progress := Py.or_float (progress data) 0.0 in
  let jc := Py.or_int (job_count data) 1 in
  let jn := Py.or_int (job_no data) 0 in
  let is_generating := match CURRENT_TASK g with Some _ => true | None => false end in
  if (0.001 <? api_progress) || is_generating then
    p <- current_image_progress g api_progress jc jn ;;
    raw <- raw_percent g p ;;
    let g' := aggregate g raw in
    Some (g',
          match Py.int_of_float (LAST_PROGRESS g') with
          | Some n => Some (mkJobInfo (CURRENT_BATCH_INDEX g + 1)
                                      (TOTAL_BATCH_COUNT g) n)
          | None => None
          end)
  else Some (g, None).

(** Lines 313-372: the whole [try ... except: pass] block. *)
Definition poll_progress (g : BatchState) (r : poll_reply)
  : BatchState * option job_info :=
  match r with
  | NoProgress => (g, None)
  | Progress200 data =>
      match progress_step g data with
      | Some res => res
      | None => (g, None)
      end
  end.

(** Line 374, evaluated on the state left by the [try] block (which never
    assigns [CURRENT_TASK]). *)
Definition val (g : BatchState) : option Z :=
  match CURRENT_TASK g with
  | None =>
      if 0 <? LAST_PROGRESS g then Some 100%Z
      else Py.int_of_float (LAST_PROGRESS g)
  | Some _ => Py.int_of_float (LAST_PROGRESS g)
  end.

(** Lines 377-401: what a poll does to the two trigger buttons and the two
    stop buttons. *)
Record buttons : Type := mkButtons {
  btn_cleanup_interactive : bool;
  btn_face_fix_interactive : bool;
  btn_stop_visible : bool;
  btn_stop_face_visible : bool
}.

Definition poll_buttons (g : BatchState) : buttons :=
  match CURRENT_TASK g with
  | Some cleanup => mkButtons false false true false
  | Some face_fix => mkButtons false false false true
  | None => mkButtons true true false false
  end.

(** ** Concrete states for the examples *)

(** A face-fix batch of 3 polled on its second image. *)
Definition face_fix_second_image : BatchState :=
  mkBatchState (Some face_fix) 1 3 2 1 0.

(** A cleanup batch (two detectors, 3 stages) polled for the first time. *)
Definition cleanup_first_poll : BatchState :=
  mkBatchState (Some cleanup) 0 1 3 (-1) 0.

(** A plain cleanup batch of 2 polled on its second image. *)
Definition cleanup_second_image : BatchState :=
  mkBatchState (Some cleanup) 1 2 1 1 0.

End Poll.

(* ================================================================== *)
(** * The normalizer's formulas as the design document words them *)
(* ================================================================== *)

Module Design.

Local Open Scope float_scope.

(** "0 while still in stage 0, else (overall_fraction - 0.5) / 0.5 once in
    stage 1". *)
Definition face_fix_progress (stage_index : Z) (overall_fraction : float) : float :=
  if (stage_index =? 0)%Z then 0.0 else (overall_fraction - 0.5) / 0.5.

(** "effective_stage_count = max(reported_stage_count, expected_stage_count)". *)
Definition effective_stage_count (reported_stage_count expected_stage_count : Z) : Z :=
  Z.max reported_stage_count expected_stage_count.

(** "clamped_stage_index = min(reported_stage_index, effective_stage_count - 1)". *)
Definition clamped_stage_index (stage_index effective : Z) : Z :=
  Z.min stage_index (effective - 1).

(** "image_progress = (clamped_stage_index + overall_fraction) /
    effective_stage_count". *)
Definition staged_progress (stage_index reported_stage_count expected_stage_count : Z)
           (overall_fraction : float) : option float :=
  let effective := effective_stage_count reported_stage_count expected_stage_count in
  n <- Py.float_of_int (clamped_stage_index stage_index effective) ;;
  d <- Py.float_of_int effective ;;
  Some ((n + overall_fraction) / d).

End Design.

(* ================================================================== *)
(** * [cleanup_sketch] and [fix_face_only]: the batch generators *)
(* ================================================================== *)

Module Orchestrator.

Local Open Scope string_scope.
Local Open Scope list_scope.
Local Open Scope Z_scope.

(** ** Arguments coming from the form *)

(** The three strength labels of the radio button, weak / medium / strong;
    [label_other] is any other value. *)
Inductive denoise_label : Type :=
| label_weak | label_medium | label_strong | label_other.

(** The ADetailer radio button: face only, hand only, face and hand;
    [ad_off] is "none" or any other value. *)
Inductive ad_mode : Type := ad_off | ad_face | ad_hand | ad_face_hand.

(** A decoded picture: an opaque handle. *)
Definition image : Type := nat.

(** ** The request sent to [/sdapi/v1/img2img] *)

Inductive ad_arg : Type :=
| ad_enabled                                   (* True *)
| ad_detector (ad_model : string) (ad_denoising_strength ad_confidence : float)
| ad_model_none.                               (* {"ad_model": "None"} *)

Definition create_safe_ad_args (model : string) (strength : float) : ad_arg :=
  ad_detector model strength 0.3%float.

Record payload : Type := mkPayload {
  init_image : string;
  prompt : string;
  negative_prompt : string;
  denoising_strength : float;
  seed : Z;
  steps : Z;
  width : Z;
  height : Z;
  cfg_scale : Z;
  sampler_name : string;
  scheduler : string;
  batch_size : Z;
  adetailer : option (list ad_arg)     (* alwayson_scripts.get("ADetailer") *)
}.

(** ** The answer of the server *)

(** One entry of [json_data['images']]: what [base64_to_image] makes of it
    ([None]: it raises) and what [save_generated_image] returns for it. *)
Record b64_image : Type := mkB64 {
  decoded : option image;
  saved_path : option string
}.

Record json_data : Type := mkJson {
  images : option (list b64_image);     (* None: no 'images' key *)
  infotext : option string              (* None: reading the infotext raises *)
}.

Inductive http_outcome : Type :=
| post_raises                            (* requests.post raised *)
| http_response (status_code : Z)
                (adetailer_not_found : bool)   (* the text names the missing script *)
                (json : option json_data).     (* None: res.json() raises *)

(** ** Errors, log lines, yields *)

Inductive error : Type :=
| ServerStopped
| ModelNotFound
| ADetailerNotFound
| APIError (status_code : Z)
| OtherException.

(** The [add_log] calls made by the generators themselves. *)
Inductive log_line : Type :=
| log_start (t : task)
| log_cancelled
| log_done (count : nat)
| log_aborted (e : error).

Inductive gen_item : Type :=
| item_path (p : string)
| item_image (img : image).

(** The second output slot receives a list, or the empty string literal. *)
Inductive params_value : Type :=
| params_list (l : list string)
| params_str (s : string).

(** [button_run]: value "run", [interactive=True];
    [button_generating d n]: value "generating (d/n)", [interactive=False]. *)
Inductive button : Type :=
| button_run
| button_generating (done : Z) (batch_count : Z).

Definition interactive (b : button) : bool :=
  match b with
  | button_run => true
  | button_generating _ _ => false
  end.

(** One [yield].  The loop yields the same two list objects every time and
    appends to them in between; [out_images] and [out_params] record what
    they hold when the value is handed over, before the generator resumes. *)
Record yielded : Type := mkYield {
  out_images : list gen_item;
  out_params : params_value;
  out_info_visible : option bool;        (* None: gr.update() *)
  out_original : option image;
  out_button : button
}.

(** ** The world around one call *)

Inductive model_outcome : Type := model_ready | model_unreachable | model_missing.

Record environment : Type := mkEnv {
  server_up : bool;                      (* check_server_status() is not "stopped" *)
  model_check : model_outcome;           (* set_model_if_needed(): True, False, raises *)
  translate : string -> option string;   (* the translator; None: it raises *)
  prepared : option (string * Z * Z * image);
     (* resize_for_sd and the opening of the original; None: one raises *)
  interrupted_before : nat -> bool;
     (* interrupt_generation() has set CURRENT_TASK to None since the
        previous check and before iteration i tests it *)
  response : nat -> http_outcome         (* the answer to the request of iteration i *)
}.

(** The generator's locals and everything it has done so far. *)
Record run_state : Type := mkRun {
  globals : BatchState;
  gen_images : list gen_item;
  parameters_list : list string;
  requests : list payload;
  yields : list yielded;
  logs : list log_line
}.

Definition with_globals (f : BatchState -> BatchState) (s : run_state) : run_state :=
  mkRun (f (globals s)) (gen_images s) (parameters_list s)
        (requests s) (yields s) (logs s).

Definition post (p : payload) (s : run_state) : run_state :=
  mkRun (globals s) (gen_images s) (parameters_list s)
        (requests s ++ [p]) (yields s) (logs s).

Definition yield (y : yielded) (s : run_state) : run_state :=
  mkRun (globals s) (gen_images s) (parameters_list s)
        (requests s) (yields s ++ [y]) (logs s).

Definition add_log (l : log_line) (s : run_state) : run_state :=
  mkRun (globals s) (gen_images s) (parameters_list s)
        (requests s) (yields s) (logs s ++ [l]).

Definition with_results (g : list gen_item) (p : list string) (s : run_state)
  : run_state :=
  mkRun (globals s) g p (requests s) (yields s) (logs s).

(** How a call ends: an exception leaves the generator, or it runs to its
    end. *)
Inductive outcome : Type :=
| raised (e : error) (g : BatchState)
| finished (s : run_state).

Inductive loop_exit : Type :=
| loop_completed
| loop_cancelled
| loop_failed (e : error).

(** ** Helpers *)

Definition quality_tags : string := "masterpiece, best quality".
Definition negative_tags : string := "bad quality, worst quality, worst detail".

Definition translate_and_optimize_prompt (tr : string -> option string)
           (jp_text : string) : string * string :=
  if String.eqb jp_text "" then (quality_tags, negative_tags)
  else
    let en_text := match tr jp_text with Some en => en | None => jp_text end in
    ((en_text ++ ", " ++ quality_tags)%string, negative_tags).

(** Lines 558-560 and 665-667. *)
Definition req_seed (seed : Z) (i : Z) : Z :=
  if negb (seed =? -1) then seed + i else seed.

(** [saved_path if saved_path else img]. *)
Definition stored_item (b : b64_image) (img : image) : gen_item :=
  match saved_path b with
  | Some p => if String.eqb p "" then item_image img else item_path p
  | None => item_image img
  end.

(** Lines 586-591: the loop over [json_data['images']]. *)
Fixpoint collect_images (info : option string) (l : list b64_image)
         (gen : list gen_item) (params : list string)
  : option (list gen_item * list string) :=
  match l with
  | [] => Some (gen, params)
  | b :: rest =>
      img <- decoded b ;;
      info_txt <- info ;;
      collect_images info rest (gen ++ [stored_item b img]) (params ++ [info_txt])
  end.

Section Batch.

Variable env : environment.
Variable batch_count : Z.
Variable payload_for : nat -> payload.   (* the payload of iteration i *)
Variable orig_img : image.

(** Lines 583-593: a 200 answer. *)
Definition on_success (i : nat) (body : option json_data) (s : run_state)
  : option run_state :=
  json <- body ;;
  s' <- match images json with
        | Some l =>
            r <- collect_images (infotext json) l (gen_images s) (parameters_list s) ;;
            Some (with_results (fst r) (snd r) s)
        | None => Some s
        end ;;
  Some (yield (mkYield (gen_images s') (params_list (parameters_list s'))
                       (Some true) (Some orig_img)
                       (button_generating (Z.of_nat i + 1) batch_count)) s').

(** Lines 550-596: [for i in range(int(batch_count))], from iteration [i]
    with [remaining] iterations to go. *)
Fixpoint batch_loop (remaining : nat) (i : nat) (s : run_state)
  : run_state * loop_exit :=
  match remaining with
  | O => (s, loop_completed)
  | S remaining' =>
      let s := if interrupted_before env i
               then with_globals (set_CURRENT_TASK None) s else s in
      match CURRENT_TASK (globals s) with
      | None => (add_log log_cancelled s, loop_cancelled)
      | Some _ =>
          let s := with_globals (set_CURRENT_BATCH_INDEX (Z.of_nat i)) s in
          let s := post (payload_for i) s in
          match response env i with
          | post_raises => (s, loop_failed OtherException)
          | http_response code missing body =>
              if (code =? 422) && missing then (s, loop_failed ADetailerNotFound)
              else if code =? 200 then
                match on_success i body s with
                | Some s' => batch_loop remaining' (S i) s'
                | None => (s, loop_failed OtherException)
                end
              else (s, loop_failed (APIError code))
          end
      end
  end.

(** Lines 598-606: what follows the loop, and the [except] handler. *)
Definition conclude (r : run_state * loop_exit) : run_state :=
  let s := fst r in
  match snd r with
  | loop_completed | loop_cancelled =>
      let s := add_log (log_done (List.length (gen_images s))) s in
      let s := with_globals (set_CURRENT_TASK None) s in
      yield (mkYield (gen_images s) (params_list (parameters_list s))
                     (Some true) (Some orig_img) button_run) s
  | loop_failed e =>
      let s := with_globals (set_CURRENT_TASK None) s in
      let s := add_log (log_aborted e) s in
      yield (mkYield [] (params_list []) (Some false) None button_run) s
  end.

End Batch.

(** Lines 525-606 and 638-714: the [try] block, once the picture is known
    to be present. *)
Definition generate (env : environment) (batch_count : Z)
           (build : string * Z * Z -> nat -> payload) (s : run_state) : run_state :=
  match prepared env with
  | None => conclude 0%nat (s, loop_failed OtherException)
  | Some (b64, w, h, orig_img) =>
      conclude orig_img
        (batch_loop env batch_count (build (b64, w, h)) orig_img
                    (Z.to_nat batch_count) 0 s)
  end.

(** Lines 512-515 and 625-628. *)
Definition no_image (g : BatchState) : run_state :=
  mkRun (set_CURRENT_TASK None g) [] [] []
        [mkYield [] (params_str "") None None button_run] [].

(** ** [cleanup_sketch] *)

Definition cleanup_strength (l : denoise_label) : float :=
  match l with
  | label_weak => 0.3%float
  | label_medium => 0.4%float
  | label_strong => 0.5%float
  | label_other => 0.4%float
  end.

Definition cleanup_expected_job_count (m : ad_mode) : Z :=
  match m with
  | ad_face | ad_hand => 2
  | ad_face_hand => 3
  | ad_off => 1
  end.

Definition cleanup_ad_args (m : ad_mode) (d_strength : float) : list ad_arg :=
  match m with
  | ad_face =>
      [ad_enabled; create_safe_ad_args "face_yolov8s.pt" d_strength; ad_model_none]
  | ad_hand =>
      [ad_enabled; create_safe_ad_args "hand_yolov8n.pt" d_strength; ad_model_none]
  | ad_face_hand =>
      [ad_enabled; create_safe_ad_args "face_yolov8s.pt" d_strength;
       create_safe_ad_args "hand_yolov8n.pt" d_strength]
  | ad_off => [ad_enabled]
  end.

Definition cleanup_payload (prompts : string * string) (d_strength : float)
           (m : ad_mode) (seed : Z) (img : string * Z * Z) (i : nat) : payload :=
  let ad_args := cleanup_ad_args m d_strength in
  mkPayload (fst (fst img)) (fst prompts) (snd prompts) d_strength
            (req_seed seed (Z.of_nat i)) 20 (snd (fst img)) (snd img) 7
            "Euler a" "Automatic" 1
            (if (1 <? List.length ad_args)%nat then Some ad_args else None).

Definition cleanup_sketch (env : environment) (g : BatchState)
           (image_path : option string) (hint_text : string) (batch_count : Z)
           (label : denoise_label) (m : ad_mode) (seed : Z) : outcome :=
  if negb (server_up env) then raised ServerStopped g
  else
    let g := mkBatchState (Some cleanup) 0 batch_count
                          (cleanup_expected_job_count m) (-1) 0%float in
    match model_check env with
    | model_missing => raised ModelNotFound g
    | model_ready | model_unreachable =>
        match image_path with
        | None => finished (no_image g)
        | Some _ =>
            let s := mkRun g [] [] [] [] [log_start cleanup] in
            let prompts := translate_and_optimize_prompt (translate env) hint_text in
            finished (generate env batch_count
                        (cleanup_payload prompts (cleanup_strength label) m seed) s)
        end
    end.

(** ** [fix_face_only] *)

Definition face_strength (l : denoise_label) : float :=
  match l with
  | label_weak => 0.3%float
  | label_medium => 0.5%float
  | label_strong => 0.7%float
  | label_other => 0.5%float
  end.

Definition face_payload (prompts : string * string) (ad_strength : float)
           (seed : Z) (img : string * Z * Z) (i : nat) : payload :=
  mkPayload (fst (fst img)) (fst prompts) (snd prompts) 0.0%float
            (req_seed seed (Z.of_nat i)) 20 (snd (fst img)) (snd img) 7
            "Euler a" "Automatic" 1
            (Some [ad_enabled; create_safe_ad_args "face_yolov8s.pt" ad_strength;
                   ad_model_none]).

Definition fix_face_only (env : environment) (g : BatchState)
           (image_path : option string) (hint_text : string) (batch_count : Z)
           (label : denoise_label) (seed : Z) : outcome :=
  if negb (server_up env) then raised ServerStopped g
  else
    let g := mkBatchState (Some face_fix) 0 batch_count 2 (-1) 0%float in
    match model_check env with
    | model_missing => raised ModelNotFound g
    | model_ready | model_unreachable =>
        match image_path with
        | None => finished (no_image g)
        | Some _ =>
            let s := mkRun g [] [] [] [] [log_start face_fix] in
            let prompts := translate_and_optimize_prompt (translate env) hint_text in
            finished (generate env batch_count
                        (face_payload prompts (face_strength label) seed) s)
        end
    end.

(** [interrupt_generation], when its request does not raise, and
    [reset_ui_state]: the two other writers of the globals. *)
Definition interrupt_generation (g : BatchState) : BatchState :=
  set_CURRENT_TASK None g.

Definition reset_ui_state (g : BatchState) : BatchState :=
  mkBatchState (CURRENT_TASK g) 0 (TOTAL_BATCH_COUNT g) (EXPECTED_JOB_COUNT g)
               (-1) 0%float.

(** The two generators: the button pressed chooses one (the ADetailer mode
    is an input of the cleanup form only). *)
Definition start (which : task) (env : environment) (g : BatchState)
           (image_path : option string) (hint_text : string) (batch_count : Z)
           (label : denoise_label) (m : ad_mode) (seed : Z) : outcome :=
  match which with
  | cleanup => cleanup_sketch env g image_path hint_text batch_count label m seed
  | face_fix => fix_face_only env g image_path hint_text batch_count label seed
  end.


(** What the answer to one request adds to [gen_images] and to
    [parameters_list] when the iteration goes through; [None] when the
    iteration raises. *)
Definition answer_items (r : http_outcome) : option (list gen_item * list string) :=
  match r with
  | post_raises => None
  | http_response code missing body =>
      if (code =? 422) && missing then None
      else if code =? 200 then
        json <- body ;;
        match images json with
        | Some l => collect_images (infotext json) l [] []
        | None => Some ([], [])
        end
      else None
  end.

Definition items_of (env : environment) (i : nat) : list gen_item :=
  match answer_items (response env i) with
  | Some r => fst r
  | None => []
  end.

Definition infos_of (env : environment) (i : nat) : list string :=
  match answer_items (response env i) with
  | Some r => snd r
  | None => []
  end.

(** The exception raised for an answer whose status is not 200. *)
Definition status_error (code : Z) (missing : bool) : error :=
  if (code =? 422) && missing then ADetailerNotFound else APIError code.

(** ** The course of a run, for the statements below *)

Section Course.

Variable env : environment.
Variable batch_count : Z.
Variable payload_for : nat -> payload.
Variable orig_img : image.

(** The state after iteration [i] went through with the items [r]. *)
Definition advance (i : nat) (r : list gen_item * list string) (s : run_state)
  : run_state :=
  let gen := gen_images s ++ fst r in
  let params := parameters_list s ++ snd r in
  mkRun (set_CURRENT_BATCH_INDEX (Z.of_nat i) (globals s)) gen params
        (requests s ++ [payload_for i])
        (yields s ++ [mkYield gen (params_list params) (Some true) (Some orig_img)
                              (button_generating (Z.of_nat i + 1) batch_count)])
        (logs s).

(** [k] iterations in a row that go through, from iteration [i]. *)
Fixpoint advance_many (k i : nat) (s : run_state) : run_state :=
  match k with
  | O => s
  | S k' =>
      advance_many k' (S i)
        (advance i (items_of env i, infos_of env i) s)
  end.

Definition goes_through (i : nat) : Prop :=
  interrupted_before env i = false /\
  exists r, answer_items (response env i) = Some r.

End Course.

(** The state both generators assign before anything else, and the
    payload each of them builds. *)
Definition init_state (which : task) (batch_count : Z) (m : ad_mode) : BatchState :=
  match which with
  | cleanup =>
      mkBatchState (Some cleanup) 0 batch_count (cleanup_expected_job_count m)
                   (-1) 0%float
  | face_fix => mkBatchState (Some face_fix) 0 batch_count 2 (-1) 0%float
  end.

Definition payload_of (which : task) (prompts : string * string)
           (label : denoise_label) (m : ad_mode) (seed : Z)
           (img : string * Z * Z) (i : nat) : payload :=
  match which with
  | cleanup => cleanup_payload prompts (cleanup_strength label) m seed img i
  | face_fix => face_payload prompts (face_strength label) seed img i
  end.

(** The incremental yield that follows iteration [j] in a run whose first
    [j + 1] iterations go through. *)
Definition progress_yield (env : environment) (batch_count : Z) (orig_img : image)
           (j : nat) : yielded :=
  mkYield (flat_map (items_of env) (seq 0 (S j)))
          (params_list (flat_map (infos_of env) (seq 0 (S j))))
          (Some true) (Some orig_img)
          (button_generating (Z.of_nat j + 1) batch_count).

(** [len(...)] of the value in the second output slot. *)
Definition params_count (p : params_value) : nat :=
  match p with
  | params_list l => List.length l
  | params_str s => String.length s
  end.

Definition run_of (o : outcome) : run_state :=
  match o with
  | finished s => s
  | raised _ g => mkRun g [] [] [] [] []
  end.

(** ** Concrete worlds for the examples *)

Definition picture (i : nat) : b64_image :=
  mkB64 (Some i) (Some (String (Ascii.ascii_of_nat (48 + i)) ".png")).

(** A 200 answer carrying one picture. *)
Definition answer_ok (i : nat) : http_outcome :=
  http_response 200 false (Some (mkJson (Some [picture i]) (Some "Steps: 20"))).

(** Every request is answered with one picture, nobody interrupts. *)
Definition env_ok : environment :=
  mkEnv true model_ready (fun _ => None) (Some ("b64", 512, 512, 0%nat))
        (fun _ => false) answer_ok.

(** As [env_ok], but the stop button is confirmed after [k] pictures. *)
Definition env_cancel_after (k : nat) : environment :=
  mkEnv true model_ready (fun _ => None) (Some ("b64", 512, 512, 0%nat))
        (Nat.eqb k) answer_ok.

(** As [env_ok], but request [k] is answered with the status [code]. *)
Definition env_fail_at (k : nat) (code : Z) : environment :=
  mkEnv true model_ready (fun _ => None) (Some ("b64", 512, 512, 0%nat))
        (fun _ => false)
        (fun i => if Nat.eqb i k then http_response code false None else answer_ok i).

(** As [env_ok], but the server is not reachable. *)
Definition env_server_down : environment :=
  mkEnv false model_ready (fun _ => None) (Some ("b64", 512, 512, 0%nat))
        (fun _ => false) answer_ok.

(** As [env_ok], but no model matches the keyword on the server. *)
Definition env_model_missing : environment :=
  mkEnv true model_missing (fun _ => None) (Some ("b64", 512, 512, 0%nat))
        (fun _ => false) answer_ok.

(** A batch of 3 cleanups whose second request is answered with status 500. *)
Definition failed_run : outcome :=
  start cleanup (env_fail_at 1 500) initial_state (Some "rough.png") "" 3
        label_medium ad_off (-1).

(** A face-fix batch of 5 on its third picture, and a click on the cleanup
    button (batch of 3) at that moment. *)
Definition face_fix_running : BatchState :=
  mkBatchState (Some face_fix) 2 5 2 2 40%float.


End Orchestrator.

(* ================================================================== *)
(** * String operations of the interpreter used by the helpers *)
(* ================================================================== *)

(** Python strings are sequences of code points; the strings below are their
    UTF-8 bytes.  Splitting at an ASCII character and searching for a
    substring give the same answers on both. *)

From Stdlib Require Import Ascii.

Module PyStr.

Local Open Scope string_scope.
Local Open Scope list_scope.

(** [s.split(sep)] for a one-character separator: never an empty list. *)
Fixpoint split (sep : Ascii.ascii) (s : string) : list string :=
  match s with
  | EmptyString => [EmptyString]
  | String c rest =>
      if Ascii.eqb c sep then EmptyString :: split sep rest
      else match split sep rest with
           | h :: t => String c h :: t
           | [] => [String c EmptyString]
           end
  end.

(** [sep.join(parts)]. *)
Fixpoint join (sep : string) (parts : list string) : string :=
  match parts with
  | [] => EmptyString
  | p :: rest =>
      match rest with
      | [] => p
      | _ :: _ => (p ++ sep ++ join sep rest)%string
      end
  end.

(** [needle in s]. *)
Fixpoint contains (needle s : string) : bool :=
  if String.prefix needle s then true
  else match s with
       | EmptyString => false
       | String _ rest => contains needle rest
       end.

(** [c in s] for one character. *)
Fixpoint has_char (c : Ascii.ascii) (s : string) : bool :=
  match s with
  | EmptyString => false
  | String d rest => Ascii.eqb d c || has_char c rest
  end.

(** [s.split(sep, 1)[1]] when [sep] occurs in [s]: what follows its first
    occurrence.  [None]: it does not occur. *)
Fixpoint after_first (sep : Ascii.ascii) (s : string) : option string :=
  match s with
  | EmptyString => None
  | String c rest => if Ascii.eqb c sep then Some rest else after_first sep rest
  end.

(** [s.rstrip(c)] for one character. *)
Fixpoint rstrip (c : Ascii.ascii) (s : string) : string :=
  match s with
  | EmptyString => EmptyString
  | String d rest =>
      match rstrip c rest with
      | EmptyString => if Ascii.eqb d c then EmptyString else String d EmptyString
      | String _ _ as r => String d r
      end
  end.

(** Whether [s] ends with the character [c]. *)
Fixpoint ends_with (c : Ascii.ascii) (s : string) : bool :=
  match s with
  | EmptyString => false
  | String d rest =>
      match rest with
      | EmptyString => Ascii.eqb d c
      | String _ _ => ends_with c rest
      end
  end.

Definition of_bytes (l : list nat) : string :=
  string_of_list_ascii (map Ascii.ascii_of_nat l).

End PyStr.

(* ================================================================== *)
(** * [find_available_port] *)
(* ================================================================== *)

Module Ports.

Local Open Scope Z_scope.

(** The [while port < 65535] loop, for the [fuel] ports from [port] on.
    [bind_ok p] tells whether [sock.bind(('0.0.0.0', p))] succeeds ([false]:
    it raises [OSError]).  [None]: every one of them was in use. *)
Fixpoint scan (bind_ok : Z -> bool) (fuel : nat) (port : Z) : option Z :=
  match fuel with
  | O => None
  | S fuel' => if bind_ok port then Some port else scan bind_ok fuel' (port + 1)
  end.

(** Lines 41-55.  The loop runs at most [65535 - start_port] times, once per
    port.  [None]: a negative port makes [bind] raise [OverflowError], which
    the [except OSError] clause lets through. *)
Definition find_available_port (bind_ok : Z -> bool) (start_port : Z) : option Z :=
  if start_port <? 0 then None
  else match scan bind_ok (Z.to_nat (65535 - start_port)) start_port with
       | Some port => Some port
       | None => Some start_port
       end.

End Ports.

(* ================================================================== *)
(** * [add_log] *)
(* ================================================================== *)

Module Logs.

Local Open Scope string_scope.
Local Open Scope list_scope.

(** The one entry of [IGNORED_LOGS]: "the picture has been saved", in
    Japanese. *)
Definition IGNORED_LOGS : list string :=
  [PyStr.of_bytes [231; 148; 187; 229; 131; 143; 227; 130; 146; 228; 191; 157;
                   229; 173; 152; 227; 129; 151; 227; 129; 190; 227; 129; 151;
                   227; 129; 159]].

Definition is_ignored (message : string) : bool :=
  existsb (fun x => PyStr.contains x message) IGNORED_LOGS.

(** [f"[{timestamp}] {message}"]. *)
Definition entry (timestamp message : string) : string :=
  "[" ++ timestamp ++ "] " ++ message.

(** Lines 188-195 on [SYSTEM_LOGS]; [timestamp] is what [time.strftime]
    returns at the call. *)
Definition add_log (DEV_MODE : bool) (SYSTEM_LOGS : list string)
           (timestamp message : string) : list string :=
  if DEV_MODE || negb (is_ignored message) then
    let logs := SYSTEM_LOGS ++ [entry timestamp message] in
    if (100 <? List.length logs)%nat then tl logs else logs
  else SYSTEM_LOGS.

(** A sequence of calls, oldest first. *)
Fixpoint add_logs (DEV_MODE : bool) (SYSTEM_LOGS : list string)
         (calls : list (string * string)) : list string :=
  match calls with
  | [] => SYSTEM_LOGS
  | (timestamp, message) :: rest =>
      add_logs DEV_MODE (add_log DEV_MODE SYSTEM_LOGS timestamp message) rest
  end.

(** The entries a sequence of calls produces, before the cap. *)
Definition entries (DEV_MODE : bool) (calls : list (string * string)) : list string :=
  map (fun c => entry (fst c) (snd c))
      (filter (fun c => DEV_MODE || negb (is_ignored (snd c))) calls).

End Logs.

(* ================================================================== *)
(** * Settings: [load_settings], [save_settings_to_file], [update_globals] *)
(* ================================================================== *)

Module Settings.

Local Open Scope string_scope.
Local Open Scope list_scope.

(** The five keys of [DEFAULT_SETTINGS], which the settings dictionary has
    at all times. *)
Record settings : Type := mkSettings {
  sd_host : string;
  sd_port : string;
  sd_webui_path : string;
  boot_args : string;
  output_dir : string
}.

(** [env_webui_path] is [os.environ.get("SD_WEBUI_PATH", ...)]. *)
Definition DEFAULT_SETTINGS (env_webui_path : string) : settings :=
  mkSettings "http://127.0.0.1" "7860" env_webui_path "" "".

(** The JSON object of the configuration file, with string values (as
    [save_settings_to_file] writes them). *)
Definition dict : Type := list (string * string).

Fixpoint get (d : dict) (k : string) : option string :=
  match d with
  | [] => None
  | (k', v) :: rest => if String.eqb k' k then Some v else get rest k
  end.

(** [d[k] = v]. *)
Fixpoint set (d : dict) (k v : string) : dict :=
  match d with
  | [] => [(k, v)]
  | (k', v') :: rest =>
      if String.eqb k' k then (k, v) :: rest else (k', v') :: set rest k v
  end.

(** Lines 100-104: a file of an older version holds ["sd_url"] instead of
    host and port. *)
Definition migrate (loaded : dict) : dict :=
  match get loaded "sd_url", get loaded "sd_host" with
  | Some sd_url, None =>
      let url_parts := PyStr.split ":"%char sd_url in
      if (3 <=? List.length url_parts)%nat then
        set (set loaded "sd_port" (last url_parts EmptyString))
            "sd_host" (PyStr.join ":" (removelast url_parts))
      else loaded
  | _, _ => loaded
  end.

(** Lines 105-106 for one key. *)
Definition override (loaded : dict) (k : string) (current : string) : string :=
  match get loaded k with
  | Some v => v
  | None => current
  end.

(** Lines 94-109.  [file] is the parsed content of the configuration file;
    [None]: there is none, or reading it raises. *)
Definition load_settings (defaults : settings) (file : option dict) : settings :=
  match file with
  | None => defaults
  | Some loaded =>
      let loaded := migrate loaded in
      mkSettings (override loaded "sd_host" (sd_host defaults))
                 (override loaded "sd_port" (sd_port defaults))
                 (override loaded "sd_webui_path" (sd_webui_path defaults))
                 (override loaded "boot_args" (boot_args defaults))
                 (override loaded "output_dir" (output_dir defaults))
  end.

(** The globals [update_globals] assigns. *)
Record globals : Type := mkGlobals {
  SD_HOST : string;
  SD_PORT : string;
  SD_WEBUI_PATH : string;
  SD_BOOT_ARGS : string;
  CURRENT_SD_URL : string;
  BASE_OUTPUT_DIR : string
}.

(** Lines 142-153; [default_output_dir] is the [Pictures/ArtAssist_Output]
    folder of the home directory. *)
Definition update_globals (default_output_dir : string) (s : settings) : globals :=
  mkGlobals (sd_host s) (sd_port s) (sd_webui_path s) (boot_args s)
            (sd_host s ++ ":" ++ sd_port s)
            (if String.eqb (output_dir s) "" then default_output_dir
             else output_dir s).

(** What the dictionary written by [json.dump] reads back as. *)
Definition to_dict (s : settings) : dict :=
  [("sd_host", sd_host s); ("sd_port", sd_port s);
   ("sd_webui_path", sd_webui_path s); ("boot_args", boot_args s);
   ("output_dir", output_dir s)].

Section Save.

(** [str.strip()], the whitespace trimming of the library. *)
Variable strip : string -> string.

(** Lines 112-119. *)
Definition new_settings (host port webui_path boot_args output_dir : string)
  : settings :=
  mkSettings (PyStr.rstrip "/"%char (strip host)) (strip port) (strip webui_path)
             (strip boot_args) (strip output_dir).

(** Lines 111-127.  [write_ok]: opening and writing the file does not
    raise.  The result is the file and the globals after a successful save;
    [None]: the error message is returned and the globals are left alone. *)
Definition save_settings_to_file (write_ok : bool) (default_output_dir : string)
           (host port webui_path boot_args output_dir : string)
  : option (dict * globals) :=
  let s := new_settings host port webui_path boot_args output_dir in
  if write_ok then Some (to_dict s, update_globals default_output_dir s)
  else None.

End Save.

End Settings.

(* ================================================================== *)
(** * Gallery helpers: [get_selected_param], [base64_to_image] *)
(* ================================================================== *)

Module Gallery.

Local Open Scope list_scope.
Local Open Scope Z_scope.

(** Lines 731-734.  [None] is the fixed message telling that there is no
    parameter information. *)
Definition get_selected_param (params : Orchestrator.params_value) (index : Z)
  : option string :=
  match params with
  | Orchestrator.params_list l =>
      if negb (Nat.eqb (List.length l) 0)
         && (0 <=? index) && (index <? Z.of_nat (List.length l))
      then nth_error l (Z.to_nat index)
      else None
  | Orchestrator.params_str _ => None
  end.

(** Lines 203-204 of [base64_to_image]: the payload that is decoded. *)
Definition b64_payload (b64_string : string) : string :=
  match PyStr.after_first ","%char b64_string with
  | Some rest => rest
  | None => b64_string
  end.

End Gallery.

(* ================================================================== *)
(** * [resize_for_sd]: the dimensions sent to the server *)
(* ================================================================== *)

Module Resize.

Local Open Scope Z_scope.

(** Lines 209-215 for a picture of [w] by [h] pixels: the new width, the new
    height and whether the picture is resampled.  [None]: a product is not a
    finite number and [int] raises, or the picture is to be resampled to a
    side below 1, which [Image.resize] refuses with [ValueError].  The
    quotient of the two integers is the correctly rounded one for sizes below
    2^53, which every picture has. *)
Definition resize_for_sd (w h max_size : Z) : option (Z * Z * bool) :=
  let scale :=
    if Z.max w h >? max_size
    then (Py.Z2float max_size / Py.Z2float (Z.max w h))%float
    else 1%float in
  new_w <- Py.int_of_float (Py.Z2float w * scale)%float ;;
  new_h <- Py.int_of_float (Py.Z2float h * scale)%float ;;
  let new_w := new_w - new_w mod 8 in
  let new_h := new_h - new_h mod 8 in
  let resampled :=
    negb (PrimFloat.eqb scale 1) || negb (w mod 8 =? 0) || negb (h mod 8 =? 0) in
  if resampled && ((new_w <? 1) || (new_h <? 1)) then None
  else Some (new_w, new_h, resampled).

End Resize.

(* ================================================================== *)
(** * Reading a run of the generators *)
(* ================================================================== *)

Module Course.

Import Orchestrator.
Local Open Scope list_scope.
Local Open Scope Z_scope.

(** A payload with another seed. *)
Definition with_seed (s : Z) (p : payload) : payload :=
  mkPayload (init_image p) (prompt p) (negative_prompt p) (denoising_strength p)
            s (steps p) (width p) (height p) (cfg_scale p) (sampler_name p)
            (scheduler p) (batch_size p) (adetailer p).

(** The detection passes a request asks for. *)
Definition detectors (p : payload) : nat :=
  match adetailer p with
  | Some args =>
      List.length (filter (fun a => match a with
                                    | ad_detector _ _ _ => true
                                    | _ => false
                                    end) args)
  | None => 0%nat
  end.

(** The exception that ends an iteration whose answer is [r]. *)
Definition failure_of (r : http_outcome) : error :=
  match r with
  | post_raises => OtherException
  | http_response code missing _ =>
      if (code =? 422) && missing then ADetailerNotFound
      else if code =? 200 then OtherException
      else APIError code
  end.

(** A yield whose parameter texts match its pictures one to one. *)
Definition aligned (y : yielded) : Prop :=
  match out_params y with
  | params_list l => List.length l = List.length (out_images y)
  | params_str _ => out_images y = []
  end.

(** The shared state a run leaves behind when it has issued [r] requests:
    the values assigned at the start, no task, and the index of the last
    request. *)
Definition final_globals (which : task) (batch_count : Z) (m : ad_mode) (r : nat)
  : BatchState :=
  mkBatchState None (Z.of_nat (r - 1)) batch_count
               (EXPECTED_JOB_COUNT (init_state which batch_count m)) (-1) 0%float.

(** The three terminal yields: the results of the [k] iterations that went
    through, the reset of the [except] handler, and the answer to a call
    without picture. *)
Definition terminal_results (env : environment) (orig_img : image) (k : nat)
  : yielded :=
  mkYield (flat_map (items_of env) (seq 0 k))
          (params_list (flat_map (infos_of env) (seq 0 k)))
          (Some true) (Some orig_img) button_run.

Definition terminal_reset : yielded :=
  mkYield [] (params_list []) (Some false) None button_run.

Definition terminal_no_image : yielded :=
  mkYield [] (params_str EmptyString) None None button_run.

(** A sample call for the examples: three cleanups from base seed 100, all
    answered. *)
Definition sample_call : outcome :=
  start cleanup env_ok initial_state (Some "rough.png"%string) EmptyString 3
        label_medium ad_off 100.

Definition sample_run : run_state := run_of sample_call.

End Course.

(* ================================================================== *)
(** * Facts about binary64 comparisons *)
(* ================================================================== *)

Module PyFacts.

Local Open Scope float_scope.

Lemma SFcompare_antisym (a b : spec_float) :
  SFcompare b a = option_map CompOpp (SFcompare a b).
Proof.
  destruct a as [[]|[]| |[] ma ea], b as [[]|[]| |[] mb eb];
    simpl; try reflexivity;
    rewrite (Z.compare_antisym ea eb); destruct (ea ?= eb)%Z;
    simpl; try reflexivity;
    change (Pos.compare_cont Eq mb ma) with (Pos.compare mb ma);
    change (Pos.compare_cont Eq ma mb) with (Pos.compare ma mb);
    rewrite (Pos.compare_antisym ma mb);
    destruct (ma ?= mb)%positive; reflexivity.
Qed.

Lemma SFcompare_lt_trans (a b c : spec_float) :
  SFcompare a b = Some Lt ->
  SFcompare b c = Some Lt \/ SFcompare b c = Some Eq ->
  SFcompare a c = Some Lt.
Proof.
  destruct a as [[]|[]| |[] ma ea], b as [[]|[]| |[] mb eb],
           c as [[]|[]| |[] mc ec];
    simpl; intros Hab [Hbc|Hbc]; try discriminate; try reflexivity;
    change (Pos.compare_cont Eq) with Pos.compare in *;
    injection Hab as Hab; injection Hbc as Hbc; f_equal;
    destruct (Z.compare_spec ea eb), (Z.compare_spec eb ec),
             (Z.compare_spec ea ec);
    subst; try discriminate; try lia; try reflexivity;
    destruct (Pos.compare_spec ma mb), (Pos.compare_spec mb mc),
             (Pos.compare_spec ma mc);
    subst; simpl in *; try discriminate; try lia; try reflexivity.
Qed.

(** The three comparisons in terms of [SFcompare]. *)
Lemma ltb_compare (x y : float) :
  (x <? y) = true <-> SFcompare (Prim2SF x) (Prim2SF y) = Some Lt.
Proof.
  rewrite FloatAxioms.ltb_spec. unfold SFltb.
  destruct (SFcompare (Prim2SF x) (Prim2SF y)) as [[]|];
    split; intro H; try reflexivity; discriminate.
Qed.

Lemma eqb_compare (x y : float) :
  (x =? y) = true <-> SFcompare (Prim2SF x) (Prim2SF y) = Some Eq.
Proof.
  rewrite FloatAxioms.eqb_spec. unfold SFeqb.
  destruct (SFcompare (Prim2SF x) (Prim2SF y)) as [[]|];
    split; intro H; try reflexivity; discriminate.
Qed.

Lemma leb_compare (x y : float) :
  (x <=? y) = true <->
  SFcompare (Prim2SF x) (Prim2SF y) = Some Lt \/
  SFcompare (Prim2SF x) (Prim2SF y) = Some Eq.
Proof.
  rewrite FloatAxioms.leb_spec. unfold SFleb.
  destruct (SFcompare (Prim2SF x) (Prim2SF y)) as [[]|];
    split; intro H; try reflexivity; try discriminate; auto;
    destruct H; discriminate.
Qed.

Lemma ltb_leb (x y : float) : (x <? y) = true -> (x <=? y) = true.
Proof. rewrite ltb_compare, leb_compare. auto. Qed.

Lemma eqb_leb (x y : float) : (x =? y) = true -> (x <=? y) = true.
Proof. rewrite eqb_compare, leb_compare. auto. Qed.

Lemma eqb_sym (x y : float) : (x =? y) = true -> (y =? x) = true.
Proof.
  rewrite !eqb_compare. intro H.
  rewrite SFcompare_antisym, H. reflexivity.
Qed.

(** A value that compares is not a NaN: it equals itself. *)
Lemma SFcompare_refl (a b : spec_float) (c : comparison) :
  SFcompare a b = Some c -> SFcompare a a = Some Eq.
Proof.
  destruct a as [[]|[]| |[] ma ea], b as [[]|[]| |[] mb eb];
    simpl; intro H; try discriminate; try reflexivity;
    rewrite Z.compare_refl;
    change (Pos.compare_cont Eq ma ma) with (Pos.compare ma ma);
    rewrite Pos.compare_refl; reflexivity.
Qed.

Lemma ltb_eqb_refl (x y : float) : (x <? y) = true -> (x =? x) = true.
Proof.
  rewrite ltb_compare, eqb_compare. apply SFcompare_refl.
Qed.

Lemma leb_not_ltb (x y : float) : (x <=? y) = true -> (y <? x) = false.
Proof.
  rewrite leb_compare. intro H.
  destruct (y <? x) eqn:E; [|reflexivity].
  apply ltb_compare in E. rewrite SFcompare_antisym in E.
  destruct H as [H|H]; rewrite H in E; discriminate.
Qed.

Lemma leb_not_ltb_eqb (x y : float) :
  (x <=? y) = true -> (x <? y) = false -> (x =? y) = true.
Proof.
  rewrite leb_compare. intros [H|H] E.
  - apply ltb_compare in H. congruence.
  - apply eqb_compare. exact H.
Qed.

Lemma ltb_leb_trans (x y z : float) :
  (x <? y) = true -> (y <=? z) = true -> (x <? z) = true.
Proof.
  rewrite !ltb_compare, leb_compare. apply SFcompare_lt_trans.
Qed.

(** [Py.max] and [Py.min] with a constant first argument. *)
Lemma max_cases (a x : float) :
  (Py.max a x = x /\ (a <? x) = true) \/ (Py.max a x = a /\ (a <? x) = false).
Proof. unfold Py.max. destruct (a <? x); auto. Qed.

Lemma min_cases (a x : float) :
  (Py.min a x = x /\ (x <? a) = true) \/ (Py.min a x = a /\ (x <? a) = false).
Proof. unfold Py.min. destruct (x <? a); auto. Qed.

(** Two results told apart by a test are different. *)
Lemma result_neq (x y : option float) (f : float -> bool) :
  option_map f x <> option_map f y -> x <> y.
Proof. intros H E. apply H. rewrite E. reflexivity. Qed.

End PyFacts.

Module PollSpec.

Import Poll PyFacts.
Local Open Scope float_scope.

(** The two clamps land in their interval whatever they are given. *)
Lemma clamp_unit_range (x : float) :
  (0 <=? clamp_unit x) = true /\ (clamp_unit x <=? 1) = true.
Proof.
  unfold clamp_unit.
  destruct (min_cases 1.0 x) as [[E H]|[E H]]; rewrite E.
  - destruct (max_cases 0.0 x) as [[E2 H2]|[E2 H2]]; rewrite E2.
    + split; apply ltb_leb; assumption.
    + split; reflexivity.
  - split; reflexivity.
Qed.

Lemma display_percent_range (x : float) :
  (0 <=? display_percent x) = true /\ (display_percent x <=? 99) = true.
Proof.
  unfold display_percent.
  destruct (max_cases 0.0 x) as [[E H]|[E H]]; rewrite E.
  - destruct (min_cases 99.0 x) as [[E2 H2]|[E2 H2]]; rewrite E2.
    + split; apply ltb_leb; assumption.
    + split; reflexivity.
  - split; reflexivity.
Qed.

(** Within [0, 1] a progress is left as it is. *)
Lemma clamp_unit_id (x : float) :
  (0 <=? x) = true -> (x <=? 1) = true -> (clamp_unit x =? x) = true.
Proof.
  intros H0 H1. unfold clamp_unit.
  destruct (min_cases 1.0 x) as [[E H]|[E H]]; rewrite E.
  - destruct (max_cases 0.0 x) as [[E2 H2]|[E2 H2]]; rewrite E2.
    + apply ltb_eqb_refl with (y := 1). exact H.
    + apply leb_not_ltb_eqb; assumption.
  - change (Py.max 0 1) with 1.
    apply eqb_sym, leb_not_ltb_eqb; assumption.
Qed.

(** Within its range a percentage is displayed as it is. *)
Lemma display_percent_id (x : float) :
  (0 <=? x) = true -> (x <=? 99) = true -> (display_percent x =? x) = true.
Proof.
  intros H0 H99. unfold display_percent.
  destruct (max_cases 0.0 x) as [[E H]|[E H]]; rewrite E.
  - destruct (min_cases 99.0 x) as [[E2 H2]|[E2 H2]]; rewrite E2.
    + apply ltb_eqb_refl with (y := 99). exact H2.
    + apply eqb_sym, leb_not_ltb_eqb; assumption.
  - change (Py.min 99 0) with 0.
    apply leb_not_ltb_eqb; assumption.
Qed.

(** When the conversion of an integer succeeds and when it raises. *)
Lemma float_of_int_some (z : Z) :
  (Z.abs z < Py.float_overflow_bound)%Z ->
  Py.float_of_int z = Some (Py.Z2float z).
Proof.
  intro H. unfold Py.float_of_int.
  destruct (Z.ltb_spec (Z.abs z) Py.float_overflow_bound); [reflexivity|lia].
Qed.

Lemma float_of_int_none (z : Z) :
  Py.float_of_int z = None -> (Py.float_overflow_bound <= Z.abs z)%Z.
Proof.
  unfold Py.float_of_int.
  destruct (Z.ltb_spec (Z.abs z) Py.float_overflow_bound); [discriminate|auto].
Qed.

(** C2.  Range of the normalizer: for every state (whatever the active
    pipeline), every reported fraction (NaN and the infinities included),
    every reported job count and every reported job number, the per-image
    progress the normalizer produces lies in the closed interval [0, 1].
    It produces none only when an intermediate integer is too large for a
    float (magnitude at least 2^1024 - 2^970), which the face-fix pipeline
    never meets: the conversion raises and the poll leaves the state as it
    was. *)
Theorem image_progress_in_unit_interval
        (g : BatchState) (api_progress : float) (job_count job_no : Z) :
  match current_image_progress g api_progress job_count job_no with
  | Some p => (0 <=? p) = true /\ (p <=? 1) = true
  | None =>
      CURRENT_TASK g <> Some face_fix /\
      let actual_job_count := Z.max job_count (EXPECTED_JOB_COUNT g) in
      let safe_job_no :=
        Z.min (guard_job_no g api_progress job_no) (actual_job_count - 1) in
      (Py.float_overflow_bound <= Z.abs safe_job_no \/
       Py.float_overflow_bound <= Z.abs (Z.max 1 actual_job_count))%Z
  end.
Proof.
  unfold current_image_progress, raw_image_progress.
  set (jn := guard_job_no g api_progress job_no).
  set (a := Z.max job_count (EXPECTED_JOB_COUNT g)).
  assert (General :
    match
      p <- (n <- Py.float_of_int (Z.min jn (a - 1)) ;;
            d <- Py.float_of_int (Z.max 1 a) ;;
            Some ((n + api_progress) / d)) ;;
      Some (clamp_unit p)
    with
    | Some p => (0 <=? p) = true /\ (p <=? 1) = true
    | None =>
        (Py.float_overflow_bound <= Z.abs (Z.min jn (a - 1)) \/
         Py.float_overflow_bound <= Z.abs (Z.max 1 a))%Z
    end).
  { destruct (Py.float_of_int (Z.min jn (a - 1))) eqn:En; cbn [Py.bind].
    - destruct (Py.float_of_int (Z.max 1 a)) eqn:Ed; cbn [Py.bind].
      + apply clamp_unit_range.
      + right. apply float_of_int_none. exact Ed.
    - left. apply float_of_int_none. exact En. }
  destruct (CURRENT_TASK g) as [[]|].
  - destruct (p <- _ ;; _); [exact General | split; [discriminate | exact General]].
  - destruct (jn =? 0)%Z; cbn [Py.bind]; apply clamp_unit_range.
  - destruct (p <- _ ;; _); [exact General | split; [discriminate | exact General]].
Qed.

(** The guard leaves the job number alone from a fraction of 0.05 on, and
    has nothing to do on a job number 0. *)
Lemma guard_job_no_inactive (g : BatchState) (f : float) (jn : Z) :
  (f <? 0.05) = false -> guard_job_no g f jn = jn.
Proof.
  intro H. unfold guard_job_no. rewrite H, andb_false_r. reflexivity.
Qed.

Lemma guard_job_no_zero (g : BatchState) (f : float) :
  guard_job_no g f 0 = 0%Z.
Proof. unfold guard_job_no. destruct (_ && _ && _); reflexivity. Qed.

(** C5.  First-image guard: on the first image of a batch
    ([CURRENT_BATCH_INDEX = 0]), a reported fraction below 0.05 with a
    reported [job_no] above 0 makes the normalizer continue with
    [job_no = 0]: the image progress, and the whole effect of the poll, are
    those of a reply that carries no [job_no].  In particular index 0, fraction
    0.02 and [job_no = 1] give stage index 0. *)
Theorem first_image_guard
        (g : BatchState) (api_progress : float) (job_no : Z) :
  CURRENT_BATCH_INDEX g = 0%Z ->
  (api_progress <? 0.05) = true ->
  (0 < job_no)%Z ->
  guard_job_no g api_progress job_no = 0%Z /\
  (forall job_count,
      current_image_progress g api_progress job_count job_no =
      current_image_progress g api_progress job_count 0) /\
  (forall reported job_count,
      Py.or_float reported 0 = api_progress ->
      poll_progress g (Progress200 (mkProgress reported job_count (Some job_no))) =
      poll_progress g (Progress200 (mkProgress reported job_count None))) /\
  guard_job_no (set_CURRENT_BATCH_INDEX 0 g) 0.02 1 = 0%Z.
Proof.
  intros Hi Hf Hj.
  assert (G : guard_job_no g api_progress job_no = 0%Z).
  { unfold guard_job_no. rewrite Hi, Hf.
    destruct (Z.gtb_spec job_no 0); [reflexivity | lia]. }
  assert (P : forall job_count,
             current_image_progress g api_progress job_count job_no =
             current_image_progress g api_progress job_count 0).
  { intro jc. unfold current_image_progress.
    rewrite G, guard_job_no_zero. reflexivity. }
  split; [exact G|]. split; [exact P|]. split; [|reflexivity].
  intros pr jc Hpr. unfold poll_progress, progress_step.
  cbn [Poll.progress Poll.job_count Poll.job_no].
  assert (J : Py.or_int (Some job_no) 0 = job_no).
  { unfold Py.or_int. destruct (Z.eqb_spec job_no 0); [lia | reflexivity]. }
  rewrite J, Hpr. change (Py.or_int None 0) with 0%Z.
  rewrite P. reflexivity.
Qed.

Lemma first_image_guard_witness :
  guard_job_no (mkBatchState (Some cleanup) 0 3 2 (-1) 0) 0.02 1 = 0%Z.
Proof.
  apply (first_image_guard (mkBatchState (Some cleanup) 0 3 2 (-1) 0) 0.02 1);
    [reflexivity | reflexivity | lia].
Defined.

(** C3, as stated, fails once the result is clamped: in the face-fix
    pipeline, at stage 1 with fraction 0.3 (second image, no guard), the
    normalizer yields 0.0 and not (0.3 - 0.5) / 0.5, which is negative. *)
Lemma face_fix_unclamped_counterexample :
  current_image_progress face_fix_second_image 0.3 2 1 = Some 0 /\
  Design.face_fix_progress 1 0.3 = (0.3 - 0.5) / 0.5 /\
  ((0.3 - 0.5) / 0.5 <? 0) = true /\
  current_image_progress face_fix_second_image 0.3 2 1 <>
    Some (Design.face_fix_progress 1 0.3).
Proof.
  repeat split; try reflexivity.
  apply (result_neq _ _ (fun x => x <? 0)). discriminate.
Qed.

(** C3, amended.  Face-fix stage mapping: when the active task is the
    face-fix pipeline, the per-image progress is 0 whenever the stage index
    is 0 (as reported, or as forced by the first-image guard), and otherwise
    it is (overall_fraction - 0.5) / 0.5 clamped to [0, 1], hence that
    quotient itself whenever it lies in [0, 1].  Fraction 0.5 at stage 1
    gives 0.0, fraction 1.0 at stage 1 gives 1.0, fraction 0.3 at stage 0
    gives 0.0. *)
Theorem face_fix_stage_mapping
        (g : BatchState) (api_progress : float) (job_count job_no : Z) :
  CURRENT_TASK g = Some face_fix ->
  let stage := guard_job_no g api_progress job_no in
  current_image_progress g api_progress job_count job_no =
    Some (clamp_unit (Design.face_fix_progress stage api_progress)) /\
  (job_no = 0%Z -> stage = 0%Z) /\
  (stage = 0%Z ->
   current_image_progress g api_progress job_count job_no = Some 0) /\
  (stage <> 0%Z ->
   current_image_progress g api_progress job_count job_no =
     Some (clamp_unit ((api_progress - 0.5) / 0.5)) /\
   ((0 <=? (api_progress - 0.5) / 0.5) = true ->
    ((api_progress - 0.5) / 0.5 <=? 1) = true ->
    (clamp_unit ((api_progress - 0.5) / 0.5) =? (api_progress - 0.5) / 0.5) = true)) /\
  current_image_progress g 0.5 job_count 1 = Some 0 /\
  current_image_progress g 1 job_count 1 = Some 1 /\
  current_image_progress g 0.3 job_count 0 = Some 0.
Proof.
  intros Ht stage.
  assert (E : forall f jn,
             current_image_progress g f job_count jn =
             Some (clamp_unit (Design.face_fix_progress (guard_job_no g f jn) f))).
  { intros f jn. unfold current_image_progress, raw_image_progress.
    rewrite Ht. unfold Design.face_fix_progress.
    destruct (guard_job_no g f jn =? 0)%Z; reflexivity. }
  split; [apply E|]. split.
  { intros ->. apply guard_job_no_zero. }
  split.
  { intro H. rewrite E. fold stage. rewrite H. reflexivity. }
  split.
  { intro H. split; [|apply clamp_unit_id].
    rewrite E. fold stage. unfold Design.face_fix_progress.
    destruct (Z.eqb_spec stage 0); [contradiction | reflexivity]. }
  rewrite !E.
  rewrite (guard_job_no_inactive g 0.5 1), (guard_job_no_inactive g 1 1),
    guard_job_no_zero by reflexivity.
  repeat split; reflexivity.
Qed.

Lemma face_fix_stage_mapping_witness :
  current_image_progress (mkBatchState (Some face_fix) 0 1 2 (-1) 0) 0.75 2 1 =
  Some (clamp_unit (Design.face_fix_progress 1 0.75)).
Proof.
  refine (proj1 (face_fix_stage_mapping
                   (mkBatchState (Some face_fix) 0 1 2 (-1) 0) 0.75 2 1 _)).
  reflexivity.
Defined.

(** C4, as stated, fails in two ways.  On the first image the guard
    replaces a reported stage index 2 (fraction 0.02) by 0 before the index
    is used, so the progress is 0.02 / 3 and not (2 + 0.02) / 3; and a
    fraction above 1 (here 1.5 at stage 0 of 1) gives the clamped 1.0 and
    not 1.5. *)
Lemma staged_progress_counterexample :
  current_image_progress cleanup_first_poll 0.02 1 2 = Some (0.02 / 3) /\
  Design.staged_progress 2 1 3 0.02 = Some ((2 + 0.02) / 3) /\
  current_image_progress cleanup_first_poll 0.02 1 2 <>
    Design.staged_progress 2 1 3 0.02 /\
  current_image_progress cleanup_second_image 1.5 1 0 = Some 1 /\
  Design.staged_progress 0 1 1 1.5 = Some 1.5 /\
  current_image_progress cleanup_second_image 1.5 1 0 <>
    Design.staged_progress 0 1 1 1.5.
Proof.
  repeat split; try reflexivity.
  - apply (result_neq _ _ (fun x => x <? 0.5)). discriminate.
  - apply (result_neq _ _ (fun x => x <? 1.25)). discriminate.
Qed.

(** C4, amended.  Effective stage count for the pipelines other than
    face-fix, with an expected stage count of at least 1: the normalizer
    uses effective_stage_count = max(reported_stage_count,
    expected_stage_count), clamps the stage index left by the first-image
    guard to at most effective_stage_count - 1, computes
    (clamped_stage_index + overall_fraction) / effective_stage_count, and
    clamps the quotient to [0, 1].  With reported count 1, expected count 3,
    stage index 2 and fraction 0.5 the result is 2.5 / 3, about 0.833. *)
Theorem effective_stage_count_progress
        (g : BatchState) (api_progress : float) (job_count job_no : Z) :
  CURRENT_TASK g <> Some face_fix ->
  (1 <= EXPECTED_JOB_COUNT g)%Z ->
  current_image_progress g api_progress job_count job_no =
    option_map clamp_unit
      (Design.staged_progress (guard_job_no g api_progress job_no)
                              job_count (EXPECTED_JOB_COUNT g) api_progress) /\
  (EXPECTED_JOB_COUNT g = 3%Z ->
   Design.effective_stage_count 1 (EXPECTED_JOB_COUNT g) = 3%Z /\
   current_image_progress g 0.5 1 2 = Some (2.5 / 3) /\
   (0.833 <? 2.5 / 3) = true /\ (2.5 / 3 <? 0.834) = true).
Proof.
  intros Ht He.
  assert (E : forall f jn,
             current_image_progress g f job_count jn =
             option_map clamp_unit
               (Design.staged_progress (guard_job_no g f jn)
                                       job_count (EXPECTED_JOB_COUNT g) f)).
  { intros f jn. unfold current_image_progress, raw_image_progress,
      Design.staged_progress, Design.effective_stage_count,
      Design.clamped_stage_index.
    replace (Z.max 1 (Z.max job_count (EXPECTED_JOB_COUNT g)))
      with (Z.max job_count (EXPECTED_JOB_COUNT g)) by lia.
    destruct (CURRENT_TASK g) as [[]|]; try congruence;
      destruct (Py.float_of_int (Z.min _ _)); cbn [Py.bind option_map];
      try reflexivity;
      destruct (Py.float_of_int (Z.max _ _)); reflexivity. }
  split; [apply E|].
  intro H3. split; [rewrite H3; reflexivity|].
  split; [|split; reflexivity].
  unfold current_image_progress, raw_image_progress.
  rewrite (guard_job_no_inactive g 0.5 2) by reflexivity.
  rewrite H3.
  destruct (CURRENT_TASK g) as [[]|]; try congruence; reflexivity.
Qed.

Lemma effective_stage_count_progress_witness :
  current_image_progress (mkBatchState (Some cleanup) 1 4 3 1 0) 0.5 1 2 =
  Some (2.5 / 3).
Proof.
  refine (proj1 (proj2 (proj2 (effective_stage_count_progress
                   (mkBatchState (Some cleanup) 1 4 3 1 0) 0.5 1 2 _ _) _))).
  - discriminate.
  - simpl. lia.
  - reflexivity.
Defined.

(** Every writer of [LAST_PROGRESS] leaves it between 0 and 99: the
    aggregator stores a displayed value, the other writers store 0.0. *)
Lemma aggregate_LAST_PROGRESS_range (g : BatchState) (raw : float) :
  (0 <=? LAST_PROGRESS (aggregate g raw)) = true /\
  (LAST_PROGRESS (aggregate g raw) <=? 99) = true.
Proof. apply display_percent_range. Qed.

Lemma poll_progress_LAST_PROGRESS_range (g : BatchState) (r : poll_reply) :
  (0 <=? LAST_PROGRESS g) = true /\ (LAST_PROGRESS g <=? 99) = true ->
  (0 <=? LAST_PROGRESS (fst (poll_progress g r))) = true /\
  (LAST_PROGRESS (fst (poll_progress g r)) <=? 99) = true.
Proof.
  intro H. destruct r as [|data]; [exact H|].
  unfold poll_progress, progress_step.
  destruct (_ || _); [|exact H].
  destruct (current_image_progress _ _ _ _) as [p|]; [|exact H].
  cbn [Py.bind]. destruct (raw_percent g p) as [raw|]; [|exact H].
  cbn [Py.bind fst]. apply aggregate_LAST_PROGRESS_range.
Qed.

(** The writers of [LAST_PROGRESS] other than the poll store 0.0. *)
Lemma writers_LAST_PROGRESS (which : task) (bc : Z) (m : Orchestrator.ad_mode)
      (g : BatchState) :
  LAST_PROGRESS (Orchestrator.init_state which bc m) = 0 /\
  LAST_PROGRESS (Orchestrator.reset_ui_state g) = 0 /\
  LAST_PROGRESS (Orchestrator.interrupt_generation g) = LAST_PROGRESS g /\
  LAST_PROGRESS initial_state = 0.
Proof. destruct which; repeat split; reflexivity. Qed.

(** C1.  Anti-regression: while the poll is on the same image
    ([LAST_BATCH_INDEX = CURRENT_BATCH_INDEX]) and the raw percent is lower
    than the last displayed percent, the aggregator keeps the previous value
    when the drop is strictly below 10.0 and takes the lower raw value when
    the drop is 10.0 or more.  The value kept or taken is also the one
    displayed and stored, the stored percent being in [0, 99] (as every
    stored one is) and the raw percent not negative.  With a last percent of
    40.0 a raw 35.0 leaves 40.0 displayed and a raw 20.0 makes the display
    20.0. *)
Theorem anti_regression (g : BatchState) (raw : float) :
  LAST_BATCH_INDEX g = CURRENT_BATCH_INDEX g ->
  (raw <? LAST_PROGRESS g) = true ->
  let delta := LAST_PROGRESS g - raw in
  ((delta <? 10) = true ->
   current_percent g raw = LAST_PROGRESS g /\
   ((0 <=? LAST_PROGRESS g) = true -> (LAST_PROGRESS g <=? 99) = true ->
    (LAST_PROGRESS (aggregate g raw) =? LAST_PROGRESS g) = true)) /\
  ((10 <=? delta) = true ->
   current_percent g raw = raw /\
   ((0 <=? raw) = true -> (LAST_PROGRESS g <=? 99) = true ->
    (LAST_PROGRESS (aggregate g raw) =? raw) = true)) /\
  LAST_BATCH_INDEX (aggregate g raw) = LAST_BATCH_INDEX g /\
  (LAST_PROGRESS g = 40 ->
   LAST_PROGRESS (aggregate g 35) = 40 /\
   LAST_PROGRESS (aggregate g 20) = 20).
Proof.
  intros Hi Hlt delta.
  assert (Hi' : (LAST_BATCH_INDEX g =? CURRENT_BATCH_INDEX g)%Z = true)
    by (apply Z.eqb_eq; exact Hi).
  split; [|split; [|split]].
  - intro Hd.
    assert (C : current_percent g raw = LAST_PROGRESS g).
    { unfold current_percent. rewrite Hi', Hlt. fold delta.
      rewrite Hd. reflexivity. }
    split; [exact C|]. intros Hlo Hhi.
    cbn [aggregate LAST_PROGRESS]. rewrite C.
    apply display_percent_id; assumption.
  - intro Hd.
    assert (C : current_percent g raw = raw).
    { unfold current_percent. rewrite Hi', Hlt. fold delta.
      rewrite (leb_not_ltb _ _ Hd). reflexivity. }
    split; [exact C|]. intros Hraw Hhi.
    cbn [aggregate LAST_PROGRESS]. rewrite C.
    apply display_percent_id; [exact Hraw|].
    apply ltb_leb, (ltb_leb_trans _ _ _ Hlt Hhi).
  - cbn [aggregate LAST_BATCH_INDEX]. rewrite Hi'. reflexivity.
  - intro H40. cbn [aggregate LAST_PROGRESS]. unfold current_percent.
    rewrite Hi', H40. split; reflexivity.
Qed.

Lemma anti_regression_witness :
  current_percent (mkBatchState (Some cleanup) 1 4 1 1 40) 35 = 40 /\
  (LAST_PROGRESS (aggregate (mkBatchState (Some cleanup) 1 4 1 1 40) 35) =? 40) = true /\
  current_percent (mkBatchState (Some cleanup) 1 4 1 1 40) 20 = 20 /\
  (LAST_PROGRESS (aggregate (mkBatchState (Some cleanup) 1 4 1 1 40) 20) =? 20) = true.
Proof.
  pose proof (anti_regression (mkBatchState (Some cleanup) 1 4 1 1 40) 35) as H35.
  pose proof (anti_regression (mkBatchState (Some cleanup) 1 4 1 1 40) 20) as H20.
  destruct H35 as [[C35 D35] _]; [reflexivity | reflexivity | reflexivity |].
  destruct H20 as [_ [[C20 D20] _]]; [reflexivity | reflexivity | reflexivity |].
  split; [exact C35|]. split; [apply D35; reflexivity|].
  split; [exact C20|]. apply D20; reflexivity.
Defined.

(** The two cases of the rule through a whole poll: a one-image cleanup
    batch whose last displayed percent is 40.0 receives the fractions 0.35
    and 0.2. *)
Example poll_anti_regression :
  let g := mkBatchState (Some cleanup) 0 1 1 0 40 in
  poll_progress g (Progress200 (mkProgress (Some 0.35) (Some 1%Z) None)) =
    (g, Some (mkJobInfo 1 1 40)) /\
  poll_progress g (Progress200 (mkProgress (Some 0.2) (Some 1%Z) None)) =
    (mkBatchState (Some cleanup) 0 1 1 0 20, Some (mkJobInfo 1 1 20)).
Proof. split; reflexivity. Qed.

End PollSpec.

(* ================================================================== *)
(** * Properties of the batch generators *)
(* ================================================================== *)

Module OrchestratorSpec.

Import Orchestrator.
Local Open Scope list_scope.
Local Open Scope Z_scope.

(** The loop over the pictures of an answer only appends. *)
Lemma collect_images_app (info : option string) (l : list b64_image)
      (gen : list gen_item) (params : list string) :
  collect_images info l gen params =
  match collect_images info l [] [] with
  | Some r => Some (gen ++ fst r, params ++ snd r)
  | None => None
  end.
Proof.
  revert gen params.
  induction l as [|b rest IH]; intros gen params; cbn [collect_images].
  - cbn [fst snd]. rewrite !app_nil_r. reflexivity.
  - destruct (decoded b) as [img|]; cbn [Py.bind]; [|reflexivity].
    destruct info as [t|]; cbn [Py.bind]; [|reflexivity].
    rewrite (IH (gen ++ _) (params ++ _)), (IH ([] ++ _) ([] ++ _)).
    destruct (collect_images (Some t) rest [] []) as [[a c]|]; [|reflexivity].
    cbn [fst snd app]. rewrite <- !app_assoc. reflexivity.
Qed.

Section Loop.

Variable env : environment.
Variable batch_count : Z.
Variable payload_for : nat -> payload.
Variable orig_img : image.

Local Abbreviation batch_loop := (batch_loop env batch_count payload_for orig_img).
Local Abbreviation on_success := (on_success batch_count orig_img).
Local Abbreviation advance := (advance batch_count payload_for orig_img).
Local Abbreviation advance_many := (advance_many env batch_count payload_for orig_img).
Local Abbreviation goes_through := (goes_through env).

(** One iteration that goes through, then [k] of them in a row. *)
Lemma batch_loop_advance (remaining i : nat) (s : run_state)
      (t : task) (r : list gen_item * list string) :
  interrupted_before env i = false ->
  CURRENT_TASK (globals s) = Some t ->
  answer_items (response env i) = Some r ->
  batch_loop (S remaining) i s = batch_loop remaining (S i) (advance i r s).
Proof.
  intros Hint Ht Hr. cbn [Orchestrator.batch_loop].
  rewrite Hint, Ht.
  unfold answer_items in Hr.
  destruct (response env i) as [|code missing body]; [discriminate|].
  destruct ((code =? 422) && missing); [discriminate|].
  destruct (code =? 200); [|discriminate].
  destruct body as [json|]; [|discriminate]. cbn [Py.bind] in Hr.
  unfold Orchestrator.on_success. cbn [Py.bind].
  destruct (images json) as [l|].
  - cbn [post with_globals gen_images parameters_list].
    rewrite collect_images_app, Hr. cbn [Py.bind]. reflexivity.
  - injection Hr as <-. cbn [Py.bind]. unfold advance.
    cbn [fst snd]. rewrite !app_nil_r. reflexivity.
Qed.

Lemma batch_loop_advance_many (k remaining i : nat) (s : run_state) (t : task) :
  (forall j, (i <= j < i + k)%nat -> goes_through j) ->
  CURRENT_TASK (globals s) = Some t ->
  batch_loop (k + remaining) i s =
  batch_loop remaining (i + k) (advance_many k i s).
Proof.
  revert i s.
  induction k as [|k IH]; intros i s Hok Ht; cbn [advance_many Nat.add].
  - rewrite Nat.add_0_r. reflexivity.
  - destruct (Hok i ltac:(lia)) as [Hint [r Hr]].
    rewrite (batch_loop_advance _ _ _ t r Hint Ht Hr).
    unfold items_of, infos_of. rewrite Hr.
    replace (fst r, snd r) with r by (destruct r; reflexivity).
    rewrite IH.
    + f_equal. lia.
    + intros j Hj. apply Hok. lia.
    + exact Ht.
Qed.

(** What [k] iterations that go through leave behind. *)
Lemma advance_many_spec (k i : nat) (s : run_state) :
  let s' := advance_many k i s in
  CURRENT_TASK (globals s') = CURRENT_TASK (globals s) /\
  gen_images s' = gen_images s ++ flat_map (items_of env) (seq i k) /\
  parameters_list s' = parameters_list s ++ flat_map (infos_of env) (seq i k) /\
  requests s' = requests s ++ map payload_for (seq i k) /\
  logs s' = logs s /\
  yields s' =
    yields s ++
    map (fun d =>
           mkYield (gen_images s ++ flat_map (items_of env) (seq i (S d)))
                   (params_list (parameters_list s ++
                                 flat_map (infos_of env) (seq i (S d))))
                   (Some true) (Some orig_img)
                   (button_generating (Z.of_nat (i + d) + 1) batch_count))
        (seq 0 k).
Proof.
  revert i s.
  induction k as [|k IH]; intros i s.
  - cbn [Orchestrator.advance_many seq flat_map map].
    rewrite !app_nil_r. repeat split; reflexivity.
  - cbn [Orchestrator.advance_many].
    destruct (IH (S i) (Orchestrator.advance batch_count payload_for orig_img i
                          (items_of env i, infos_of env i) s))
      as (Ht & Hg & Hp & Hr & Hl & Hy).
    cbn zeta in *. rewrite Ht, Hg, Hp, Hr, Hl, Hy.
    cbn [Orchestrator.advance globals gen_images parameters_list requests
         logs yields set_CURRENT_BATCH_INDEX CURRENT_TASK fst snd].
    rewrite <- !app_assoc.
    repeat split; try reflexivity.
    f_equal.
    change (seq 0 (S k)) with (0%nat :: seq 1 k).
    rewrite <- (seq_shift k 0). cbn [map app]. rewrite map_map.
    f_equal.
    + cbn [seq flat_map]. rewrite !app_nil_r, Nat.add_0_r. reflexivity.
    + apply map_ext. intro d.
      cbn [seq flat_map]. rewrite <- !app_assoc.
      replace (Z.of_nat (S i + d)) with (Z.of_nat (i + S d)) by lia.
      reflexivity.
Qed.

(** The requests issued by the loop are those of consecutive indexes. *)
Lemma batch_loop_requests (remaining i : nat) (s : run_state) :
  exists m, (m <= remaining)%nat /\
            requests (fst (batch_loop remaining i s)) =
            requests s ++ map payload_for (seq i m).
Proof.
  revert i s.
  induction remaining as [|remaining IH]; intros i s;
    cbn [Orchestrator.batch_loop].
  - exists 0%nat. cbn. rewrite app_nil_r. split; [lia | reflexivity].
  - set (s0 := if interrupted_before env i
               then with_globals (set_CURRENT_TASK None) s else s).
    assert (R0 : requests s0 = requests s)
      by (unfold s0; destruct (interrupted_before env i); reflexivity).
    destruct (CURRENT_TASK (globals s0)).
    2:{ exists 0%nat. cbn. rewrite app_nil_r. split; [lia | exact R0]. }
    assert (One : exists m, (m <= S remaining)%nat /\
              requests (post (payload_for i)
                 (with_globals (set_CURRENT_BATCH_INDEX (Z.of_nat i)) s0)) =
              requests s ++ map payload_for (seq i m)).
    { exists 1%nat. cbn. rewrite R0. split; [lia | reflexivity]. }
    destruct (response env i) as [|code missing body]; [exact One|].
    destruct ((code =? 422) && missing); [exact One|].
    destruct (code =? 200); [|exact One].
    destruct (on_success i body _) as [s'|] eqn:Es; [|exact One].
    destruct (IH (S i) s') as (m & Hm & Hreq).
    exists (S m). split; [lia|]. rewrite Hreq.
    assert (R' : requests s' = requests s ++ [payload_for i]).
    { unfold Orchestrator.on_success in Es.
      destruct body as [json|]; [|discriminate]. cbn [Py.bind] in Es.
      destruct (images json) as [l|].
      - destruct (collect_images _ _ _ _); [|discriminate].
        cbn [Py.bind] in Es. injection Es as <-. cbn. rewrite R0. reflexivity.
      - cbn [Py.bind] in Es. injection Es as <-. cbn. rewrite R0. reflexivity. }
    rewrite R'. cbn [seq map]. rewrite <- app_assoc. reflexivity.
Qed.

End Loop.

(** A start that finds the server, the model and the picture runs the
    loop from the freshly assigned state. *)
Lemma start_runs_loop (which : task) (env : environment) (g : BatchState)
      (path hint : string) (bc : Z) (label : denoise_label) (m : ad_mode)
      (seed : Z) (b64 : string) (w h : Z) (orig : image) :
  server_up env = true ->
  model_check env <> model_missing ->
  prepared env = Some (b64, w, h, orig) ->
  start which env g (Some path) hint bc label m seed =
  finished
    (conclude orig
       (batch_loop env bc
          (payload_of which (translate_and_optimize_prompt (translate env) hint)
                      label m seed (b64, w, h))
          orig (Z.to_nat bc) 0
          (mkRun (init_state which bc m) [] [] [] [] [log_start which]))).
Proof.
  intros Hup Hmodel Hprep.
  destruct which; cbn [start]; unfold cleanup_sketch, fix_face_only, generate;
    rewrite Hup, Hprep; cbn [negb];
    destruct (model_check env); try congruence; reflexivity.
Qed.

(** Nothing is requested after the loop. *)
Lemma requests_conclude (orig : image) (r : run_state * loop_exit) :
  requests (conclude orig r) = requests (fst r).
Proof. destruct r as [s []]; reflexivity. Qed.

(** The [i]-th element of a list built over consecutive indexes. *)
Lemma nth_error_map_seq {A : Type} (f : nat -> A) (a m i : nat) (x : A) :
  nth_error (map f (seq a m)) i = Some x -> x = f (a + i)%nat.
Proof.
  revert a i. induction m as [|m IH]; intros a i H.
  - destruct i; discriminate.
  - destruct i as [|i]; cbn in H.
    + injection H as <-. f_equal. lia.
    + apply IH in H. rewrite H. f_equal. lia.
Qed.

(** Both payloads take their seed from [req_seed]. *)
Lemma seed_payload_of (which : task) (prompts : string * string)
      (label : denoise_label) (m : ad_mode) (s : Z) (img : string * Z * Z)
      (i : nat) :
  seed (payload_of which prompts label m s img i) = req_seed s (Z.of_nat i).
Proof. destruct which; reflexivity. Qed.

(** C8.  Seed policy: in every run of either generator, the request
    issued for in-batch index [i] carries the base seed plus [i] when the
    base seed is not -1, and -1 itself when it is.  Base seed 100 gives 100,
    101 and 102 for the indexes 0, 1 and 2; base seed -1 gives -1 three
    times. *)
Theorem seed_policy (which : task) (env : environment) (g : BatchState)
        (image_path : option string) (hint : string) (bc : Z)
        (label : denoise_label) (m : ad_mode) (base_seed : Z)
        (s : run_state) (i : nat) (p : payload) :
  start which env g image_path hint bc label m base_seed = finished s ->
  nth_error (requests s) i = Some p ->
  seed p = req_seed base_seed (Z.of_nat i) /\
  (base_seed <> -1 -> seed p = base_seed + Z.of_nat i) /\
  (base_seed = -1 -> seed p = -1) /\
  map (req_seed 100) [0; 1; 2] = [100; 101; 102] /\
  map (req_seed (-1)) [0; 1; 2] = [-1; -1; -1].
Proof.
  intros Hrun Hnth.
  assert (Hseed : seed p = req_seed base_seed (Z.of_nat i)).
  { assert (Hgen : forall build s0,
               requests s0 = [] ->
               (forall img j, seed (build img j) = req_seed base_seed (Z.of_nat j)) ->
               nth_error (requests (generate env bc build s0)) i = Some p ->
               seed p = req_seed base_seed (Z.of_nat i)).
    { intros build s0 Hs0 Hbuild H. unfold generate in H.
      destruct (prepared env) as [[[[b64 w] h] orig]|].
      - rewrite requests_conclude in H.
        destruct (batch_loop_requests env bc (build (b64, w, h)) orig
                    (Z.to_nat bc) 0 s0) as (n & _ & Hreq).
        rewrite Hreq, Hs0 in H. cbn [app] in H.
        apply nth_error_map_seq in H. rewrite H. apply Hbuild.
      - rewrite requests_conclude in H. cbn [fst] in H. rewrite Hs0 in H.
        destruct i; discriminate. }
    destruct which; cbn [start] in Hrun;
      unfold cleanup_sketch, fix_face_only in Hrun;
      destruct (server_up env); cbn [negb] in Hrun; try discriminate;
      destruct (model_check env); try discriminate;
      destruct image_path as [path|];
      injection Hrun as <-;
      try (destruct i; discriminate);
      (refine (Hgen _ _ _ _ Hnth); [reflexivity | intros; reflexivity]). }
  split; [exact Hseed|]. rewrite Hseed. unfold req_seed.
  split; [|split; [|split; reflexivity]]; intro H.
  - destruct (Z.eqb_spec base_seed (-1)); [contradiction | reflexivity].
  - rewrite H. reflexivity.
Qed.

(** Base seed 100, batch of 3: the third request carries 102. *)
Lemma seed_policy_witness :
  seed (cleanup_payload (quality_tags, negative_tags) 0.4%float ad_off 100
                        ("b64"%string, 512, 512) 2) = 102.
Proof.
  refine (proj1 (proj2 (seed_policy cleanup env_ok initial_state
                   (Some "rough.png"%string) ""%string 3 label_medium ad_off 100
                   (run_of (start cleanup env_ok initial_state
                              (Some "rough.png"%string) ""%string 3
                              label_medium ad_off 100))
                   2 (cleanup_payload (quality_tags, negative_tags) 0.4%float
                                      ad_off 100 ("b64"%string, 512, 512) 2)
                   _ _)) _).
  - vm_compute. reflexivity.
  - vm_compute. reflexivity.
  - lia.
Defined.

(** The seeds of whole batches of 3: base seed 100, then base seed -1, in
    both pipelines. *)
Example seed_increment :
  map seed (requests (run_of (start cleanup env_ok initial_state
              (Some "rough.png"%string) ""%string 3 label_medium ad_off 100))) =
    [100; 101; 102] /\
  map seed (requests (run_of (start face_fix env_ok initial_state
              (Some "face.png"%string) ""%string 3 label_medium ad_off 100))) =
    [100; 101; 102] /\
  map seed (requests (run_of (start cleanup env_ok initial_state
              (Some "rough.png"%string) ""%string 3 label_medium ad_off (-1)))) =
    [-1; -1; -1] /\
  map seed (requests (run_of (start face_fix env_ok initial_state
              (Some "face.png"%string) ""%string 3 label_medium ad_off (-1)))) =
    [-1; -1; -1].
Proof. repeat (apply conj; [vm_compute; reflexivity|]).
       vm_compute. reflexivity. Qed.

(** A batch of 3 whose requests all succeed: three requests, three
    results, three incremental yields and the terminal one, no active task
    at the end. *)
Example full_batch :
  exists s,
    start cleanup env_ok initial_state (Some "rough.png"%string) ""%string 3
          label_medium ad_off (-1) = finished s /\
    List.length (requests s) = 3%nat /\
    gen_images s = [item_path "0.png"; item_path "1.png"; item_path "2.png"] /\
    List.length (yields s) = 4%nat /\
    logs s = [log_start cleanup; log_done 3] /\
    CURRENT_TASK (globals s) = None /\
    CURRENT_BATCH_INDEX (globals s) = 2.
Proof.
  eexists. split; [vm_compute; reflexivity|].
  repeat (apply conj; [vm_compute; reflexivity|]). vm_compute. reflexivity.
Qed.

(** C7.  Cooperative cancellation at an image boundary: in a run of
    either generator whose first [k] iterations went through, if the flag
    is seen at the start of iteration [k] (the task has been set to [None]),
    the loop stops there.  The requests issued are exactly those of the
    indexes 0 .. k-1, the yields are the [k] incremental ones followed by the
    terminal one, which carries exactly the pictures and the parameter
    texts of those [k] answers and re-enables the button, the cancellation
    is logged and [CURRENT_TASK] ends as [None].  When every answer holds
    one picture the terminal yield holds [k] results. *)
Theorem cancellation_at_image_boundary
        (which : task) (env : environment) (g : BatchState)
        (path hint : string) (bc : Z) (label : denoise_label) (m : ad_mode)
        (base_seed : Z) (k : nat) (b64 : string) (w h : Z) (orig : image) :
  server_up env = true ->
  model_check env <> model_missing ->
  prepared env = Some (b64, w, h, orig) ->
  (k < Z.to_nat bc)%nat ->
  (forall j, (j < k)%nat -> goes_through env j) ->
  interrupted_before env k = true ->
  exists s,
    start which env g (Some path) hint bc label m base_seed = finished s /\
    requests s =
      map (payload_of which (translate_and_optimize_prompt (translate env) hint)
                      label m base_seed (b64, w, h))
          (seq 0 k) /\
    yields s =
      map (progress_yield env bc orig) (seq 0 k) ++
      [mkYield (flat_map (items_of env) (seq 0 k))
               (params_list (flat_map (infos_of env) (seq 0 k)))
               (Some true) (Some orig) button_run] /\
    logs s = [log_start which; log_cancelled;
              log_done (List.length (flat_map (items_of env) (seq 0 k)))] /\
    CURRENT_TASK (globals s) = None /\
    ((forall j, (j < k)%nat -> List.length (items_of env j) = 1%nat) ->
     List.length (flat_map (items_of env) (seq 0 k)) = k).
Proof.
  intros Hup Hmodel Hprep Hk Hok Hcancel.
  eexists. split.
  { rewrite (start_runs_loop which env g path hint bc label m base_seed
               b64 w h orig Hup Hmodel Hprep).
    reflexivity. }
  set (pf := payload_of which _ label m base_seed (b64, w, h)).
  set (s0 := mkRun (init_state which bc m) [] [] [] [] [log_start which]).
  replace (Z.to_nat bc) with (k + S (Z.to_nat bc - S k))%nat by lia.
  rewrite (batch_loop_advance_many env bc pf orig k _ 0 s0 which).
  2:{ intros j Hj. apply Hok. lia. }
  2:{ destruct which; reflexivity. }
  destruct (advance_many_spec env bc pf orig k 0 s0)
    as (Ht & Hg & Hp & Hr & Hl & Hy).
  cbn zeta in *. cbn [Nat.add batch_loop]. rewrite Hcancel.
  cbn [with_globals globals set_CURRENT_TASK CURRENT_TASK add_log conclude
       fst snd yield requests yields logs gen_images parameters_list].
  rewrite Hg, Hp, Hr, Hl, Hy. cbn [s0 gen_images parameters_list requests
                                   yields logs app].
  repeat split; try reflexivity.
  intro Hone. clear - Hone.
  assert (G : forall a n, (forall j, (a <= j < a + n)%nat ->
                                     List.length (items_of env j) = 1%nat) ->
                          List.length (flat_map (items_of env) (seq a n)) = n).
  { intros a n. revert a. induction n as [|n IH]; intros a H; [reflexivity|].
    cbn [seq flat_map]. rewrite length_app, H, IH by (try intros; try apply H; lia).
    reflexivity. }
  apply G. intros j Hj. apply Hone. lia.
Qed.

(** A batch of 5 cancelled after the second picture: two requests, two
    results. *)
Lemma cancellation_at_image_boundary_witness :
  exists s,
    start cleanup (env_cancel_after 2) initial_state (Some "rough.png"%string)
          ""%string 5 label_medium ad_off (-1) = finished s /\
    List.length (requests s) = 2%nat /\
    option_map out_images (nth_error (yields s) 2) =
      Some [item_path "0.png"; item_path "1.png"] /\
    List.length (yields s) = 3%nat /\
    CURRENT_TASK (globals s) = None.
Proof.
  destruct (cancellation_at_image_boundary cleanup (env_cancel_after 2)
              initial_state "rough.png"%string ""%string 5 label_medium ad_off
              (-1) 2 "b64"%string 512 512 0%nat)
    as (s & Hs & Hr & Hy & Hl & Ht & Hn).
  - reflexivity.
  - discriminate.
  - reflexivity.
  - vm_compute. lia.
  - intros j Hj. split; [|eexists]; destruct j as [|[|j]];
      try reflexivity; lia.
  - reflexivity.
  - exists s. split; [exact Hs|]. rewrite Hr, Hy.
    repeat split; try reflexivity. exact Ht.
Defined.

(** C6, as stated, fails on the final result: in a batch of 3 whose first
    request produces a picture and whose second request is answered with
    status 500, the first yield carries that picture but the terminal
    yield carries an empty list. *)
Lemma partial_results_not_returned_counterexample :
  exists s,
    failed_run = finished s /\
    option_map out_images (nth_error (yields s) 0) = Some [item_path "0.png"] /\
    List.length (yields s) = 2%nat /\
    option_map out_images (nth_error (yields s) 1) = Some [] /\
    option_map out_params (nth_error (yields s) 1) = Some (params_list []).
Proof.
  exists (run_of failed_run).
  repeat (apply conj; [vm_compute; reflexivity|]). vm_compute. reflexivity.
Qed.

(** C6, amended.  Request failure in the middle of a batch: in a run of
    either generator whose first [k] iterations went through, if request
    [k] is answered with a status other than 200, the batch is aborted at
    once: no request follows that of index [k], [CURRENT_TASK] is cleared,
    the error is logged, and the terminal yield re-enables the button and
    carries an empty result list and an empty parameter list.  The pictures
    of the earlier iterations appear in the incremental yields that precede
    it, not in the final result. *)
Theorem request_failure_aborts_batch
        (which : task) (env : environment) (g : BatchState)
        (path hint : string) (bc : Z) (label : denoise_label) (m : ad_mode)
        (base_seed : Z) (k : nat) (b64 : string) (w h : Z) (orig : image)
        (code : Z) (missing : bool) (body : option json_data) :
  server_up env = true ->
  model_check env <> model_missing ->
  prepared env = Some (b64, w, h, orig) ->
  (k < Z.to_nat bc)%nat ->
  (forall j, (j < k)%nat -> goes_through env j) ->
  interrupted_before env k = false ->
  response env k = http_response code missing body ->
  code <> 200 ->
  exists s,
    start which env g (Some path) hint bc label m base_seed = finished s /\
    requests s =
      map (payload_of which (translate_and_optimize_prompt (translate env) hint)
                      label m base_seed (b64, w, h))
          (seq 0 (S k)) /\
    yields s =
      map (progress_yield env bc orig) (seq 0 k) ++
      [mkYield [] (params_list []) (Some false) None button_run] /\
    logs s = [log_start which; log_aborted (status_error code missing)] /\
    CURRENT_TASK (globals s) = None.
Proof.
  intros Hup Hmodel Hprep Hk Hok Hint Hresp Hcode.
  eexists. split.
  { rewrite (start_runs_loop which env g path hint bc label m base_seed
               b64 w h orig Hup Hmodel Hprep).
    reflexivity. }
  set (pf := payload_of which _ label m base_seed (b64, w, h)).
  set (s0 := mkRun (init_state which bc m) [] [] [] [] [log_start which]).
  replace (Z.to_nat bc) with (k + S (Z.to_nat bc - S k))%nat by lia.
  rewrite (batch_loop_advance_many env bc pf orig k _ 0 s0 which).
  2:{ intros j Hj. apply Hok. lia. }
  2:{ destruct which; reflexivity. }
  destruct (advance_many_spec env bc pf orig k 0 s0)
    as (Ht & Hg & Hp & Hr & Hl & Hy).
  cbn zeta in *. cbn [Nat.add batch_loop]. rewrite Hint, Ht, Hresp.
  assert (Hs0 : CURRENT_TASK (globals s0) = Some which)
    by (destruct which; reflexivity).
  rewrite Hs0. unfold status_error.
  destruct (Z.eqb_spec code 200) as [|_]; [contradiction|].
  assert (Fin : forall e,
             let s := conclude orig
                        (post (pf k)
                           (with_globals (set_CURRENT_BATCH_INDEX (Z.of_nat k))
                              (advance_many env bc pf orig k 0 s0)),
                         loop_failed e) in
             requests s = map pf (seq 0 (S k)) /\
             yields s =
               map (progress_yield env bc orig) (seq 0 k) ++
               [mkYield [] (params_list []) (Some false) None button_run] /\
             logs s = [log_start which; log_aborted e] /\
             CURRENT_TASK (globals s) = None).
  { intro e.
    cbn [with_globals globals set_CURRENT_TASK CURRENT_TASK add_log conclude
         post fst snd yield requests yields logs gen_images parameters_list].
    rewrite Hr, Hl, Hy. cbn [s0 gen_images parameters_list requests
                             yields logs app].
    rewrite seq_S, map_app. repeat split; reflexivity. }
  destruct ((code =? 422) && missing); apply Fin.
Qed.

Lemma request_failure_aborts_batch_witness :
  exists s,
    start face_fix (env_fail_at 1 500) initial_state (Some "face.png"%string)
          ""%string 3 label_medium ad_off (-1) = finished s /\
    List.length (requests s) = 2%nat /\
    option_map out_images (nth_error (yields s) 1) = Some [] /\
    logs s = [log_start face_fix; log_aborted (APIError 500)] /\
    CURRENT_TASK (globals s) = None.
Proof.
  destruct (request_failure_aborts_batch face_fix (env_fail_at 1 500)
              initial_state "face.png"%string ""%string 3 label_medium ad_off
              (-1) 1 "b64"%string 512 512 0%nat 500 false None)
    as (s & Hs & Hr & Hy & Hl & Ht).
  - reflexivity.
  - discriminate.
  - reflexivity.
  - vm_compute. lia.
  - intros j Hj. split; [|eexists]; destruct j as [|j];
      try reflexivity; lia.
  - reflexivity.
  - reflexivity.
  - lia.
  - exists s. split; [exact Hs|]. rewrite Hr, Hy, Hl.
    repeat split; try reflexivity. exact Ht.
Defined.




(** A call without picture on the path the generators handle: with the
    server reachable and the model check passing, either generator clears
    [CURRENT_TASK] and yields once: an empty result list, the empty string
    (length 0) in the parameters slot, and the trigger button re-enabled.
    No generation request is issued. *)
Lemma no_source_image
        (which : task) (env : environment) (g : BatchState) (hint : string)
        (bc : Z) (label : denoise_label) (m : ad_mode) (base_seed : Z) :
  server_up env = true ->
  model_check env <> model_missing ->
  exists s y,
    start which env g None hint bc label m base_seed = finished s /\
    CURRENT_TASK (globals s) = None /\
    yields s = [y] /\
    out_images y = [] /\
    out_params y = params_str ""%string /\
    params_count (out_params y) = 0%nat /\
    out_button y = button_run /\
    interactive (out_button y) = true /\
    requests s = [].
Proof.
  intros Hup Hmodel.
  exists (no_image (init_state which bc m)),
         (mkYield [] (params_str ""%string) None None button_run).
  split.
  - destruct which; cbn [start]; unfold cleanup_sketch, fix_face_only;
      rewrite Hup; cbn [negb];
      destruct (model_check env); try congruence; reflexivity.
  - destruct which; repeat split; reflexivity.
Qed.

(** With the server unreachable the first check of either generator raises
    before anything is assigned or yielded, with or without a picture. *)
Example no_source_image_server_down :
  start cleanup env_server_down face_fix_running None ""%string 2 label_medium
        ad_off (-1) = raised ServerStopped face_fix_running /\
  start face_fix env_server_down face_fix_running None ""%string 2 label_medium
        ad_off (-1) = raised ServerStopped face_fix_running.
Proof. split; reflexivity. Qed.

(** C10.  A call without picture while no model of the server matches the
    keyword, from the idle state.  The exception of the model check leaves
    either generator before the picture is looked at: nothing is yielded, no
    request is issued, and [CURRENT_TASK] stays assigned, so that a poll
    keeps both trigger buttons disabled.  The same call with the model
    present takes the exit written for a missing picture: it clears
    [CURRENT_TASK] and yields the empty result with the button re-enabled. *)
Theorem no_source_image_task_left_assigned :
  start cleanup env_model_missing initial_state None ""%string 2 label_medium
        ad_off (-1) =
    raised ModelNotFound (mkBatchState (Some cleanup) 0 2 1 (-1) 0%float) /\
  start face_fix env_model_missing initial_state None ""%string 2 label_medium
        ad_off (-1) =
    raised ModelNotFound (mkBatchState (Some face_fix) 0 2 2 (-1) 0%float) /\
  Poll.poll_buttons (mkBatchState (Some cleanup) 0 2 1 (-1) 0%float) =
    Poll.mkButtons false false true false /\
  Poll.poll_buttons (mkBatchState (Some face_fix) 0 2 2 (-1) 0%float) =
    Poll.mkButtons false false false true /\
  exists s,
    start cleanup env_ok initial_state None ""%string 2 label_medium ad_off (-1) =
      finished s /\
    CURRENT_TASK (globals s) = None /\
    yields s = [mkYield [] (params_str ""%string) None None button_run] /\
    requests s = [].
Proof.
  split; [reflexivity|]. split; [reflexivity|].
  split; [reflexivity|]. split; [reflexivity|].
  eexists. split; [reflexivity|]. repeat split.
Qed.

End OrchestratorSpec.

(* ================================================================== *)
(** * Further properties of the batch generators *)
(* ================================================================== *)

Module OrchestratorExtra.

Import Orchestrator OrchestratorSpec Course.
Local Open Scope list_scope.
Local Open Scope Z_scope.

(** How a call that runs to its end is made up. *)
Lemma finished_cases (which : task) (env : environment) (g : BatchState)
      (image_path : option string) (hint : string) (bc : Z)
      (label : denoise_label) (m : ad_mode) (base_seed : Z) (s : run_state) :
  start which env g image_path hint bc label m base_seed = finished s ->
  server_up env = true /\ model_check env <> model_missing /\
  ((image_path = None /\ s = no_image (init_state which bc m)) \/
   (image_path <> None /\
    s = generate env bc
          (payload_of which (translate_and_optimize_prompt (translate env) hint)
                      label m base_seed)
          (mkRun (init_state which bc m) [] [] [] [] [log_start which]))).
Proof.
  intro H.
  destruct which; cbn [start] in H; unfold cleanup_sketch, fix_face_only in H;
    destruct (server_up env); cbn [negb] in H; try discriminate;
    destruct (model_check env); try discriminate;
    destruct image_path; injection H as <-;
    (split; [reflexivity|]); (split; [discriminate|]);
    solve [left; split; reflexivity | right; split; [discriminate | reflexivity]].
Qed.

Section Loop.

Variable env : environment.
Variable batch_count : Z.
Variable payload_for : nat -> payload.
Variable orig_img : image.

Local Abbreviation batch_loop := (batch_loop env batch_count payload_for orig_img).
Local Abbreviation on_success := (on_success batch_count orig_img).

(** What a 200 answer that goes through changes. *)
Lemma on_success_inv (i : nat) (body : option json_data) (s s' : run_state) :
  on_success i body s = Some s' ->
  exists items infos,
    answer_items (http_response 200 false body) = Some (items, infos) /\
    List.length items = List.length infos /\
    s' = mkRun (globals s) (gen_images s ++ items) (parameters_list s ++ infos)
               (requests s)
               (yields s ++
                [mkYield (gen_images s ++ items)
                         (params_list (parameters_list s ++ infos))
                         (Some true) (Some orig_img)
                         (button_generating (Z.of_nat i + 1) batch_count)])
               (logs s).
Proof.
  unfold Orchestrator.on_success, answer_items. cbn [Z.eqb andb Pos.eqb].
  destruct body as [json|]; cbn [Py.bind]; [|discriminate].
  destruct (images json) as [l|].
  - rewrite collect_images_app.
    destruct (collect_images (infotext json) l [] []) as [[items infos]|] eqn:E;
      cbn [Py.bind]; [|discriminate].
    intro H. injection H as <-. exists items, infos.
    split; [reflexivity|]. split; [|reflexivity].
    clear - E.
    assert (G : forall l gen params r,
               collect_images (infotext json) l gen params = Some r ->
               List.length gen = List.length params ->
               List.length (fst r) = List.length (snd r)).
    { clear. induction l as [|b rest IH]; intros gen params r H Hlen;
        cbn [collect_images] in H.
      - injection H as <-. exact Hlen.
      - destruct (decoded b); cbn [Py.bind] in H; [|discriminate].
        destruct (infotext json); cbn [Py.bind] in H; [|discriminate].
        apply IH in H; [exact H|]. rewrite !length_app, Hlen. reflexivity. }
    apply (G _ _ _ _ E). reflexivity.
  - cbn [Py.bind]. intro H. injection H as <-. exists [], [].
    split; [reflexivity|]. split; [reflexivity|].
    destruct s; cbn. rewrite !app_nil_r. reflexivity.
Qed.

(** An answer that does not go through ends the loop with its exception. *)
Lemma batch_loop_fails (remaining i : nat) (s : run_state) (t : task) :
  interrupted_before env i = false ->
  CURRENT_TASK (globals s) = Some t ->
  answer_items (response env i) = None ->
  batch_loop (S remaining) i s =
  (post (payload_for i) (with_globals (set_CURRENT_BATCH_INDEX (Z.of_nat i)) s),
   loop_failed (failure_of (response env i))).
Proof.
  intros Hint Ht Hr. cbn [Orchestrator.batch_loop]. rewrite Hint, Ht.
  unfold answer_items in Hr. unfold failure_of.
  destruct (response env i) as [|code missing body]; [reflexivity|].
  destruct ((code =? 422) && missing); [reflexivity|].
  destruct (code =? 200); [|reflexivity].
  unfold Orchestrator.on_success.
  destruct body as [json|]; cbn [Py.bind] in *; [|reflexivity].
  destruct (images json) as [l|]; [|discriminate].
  rewrite collect_images_app, Hr. reflexivity.
Qed.

(** Every run of the loop that starts with a task assigned is made of [m]
    iterations that go through, followed by the end of the range, by a
    cancellation or by a failure. *)
Lemma batch_loop_shape (remaining i : nat) (s : run_state) (t : task) :
  CURRENT_TASK (globals s) = Some t ->
  exists m,
    (m <= remaining)%nat /\
    (forall j, (i <= j < i + m)%nat -> goes_through env j) /\
    let s' := advance_many env batch_count payload_for orig_img m i s in
    ((m = remaining /\ batch_loop remaining i s = (s', loop_completed)) \/
     ((m < remaining)%nat /\ interrupted_before env (i + m) = true /\
      batch_loop remaining i s =
      (add_log log_cancelled (with_globals (set_CURRENT_TASK None) s'),
       loop_cancelled)) \/
     ((m < remaining)%nat /\ interrupted_before env (i + m) = false /\
      answer_items (response env (i + m)) = None /\
      batch_loop remaining i s =
      (post (payload_for (i + m)%nat)
            (with_globals (set_CURRENT_BATCH_INDEX (Z.of_nat (i + m))) s'),
       loop_failed (failure_of (response env (i + m)))))).
Proof.
  revert i s.
  induction remaining as [|remaining IH]; intros i s Ht.
  - exists 0%nat. split; [lia|]. split; [intros j Hj; lia|].
    left. split; reflexivity.
  - destruct (interrupted_before env i) eqn:Hint.
    + exists 0%nat. split; [lia|]. split; [intros j Hj; lia|].
      right; left. rewrite Nat.add_0_r. split; [lia|]. split; [exact Hint|].
      cbn [Orchestrator.batch_loop Orchestrator.advance_many]. rewrite Hint.
      reflexivity.
    + destruct (answer_items (response env i)) as [r|] eqn:Hr.
      * rewrite (batch_loop_advance env batch_count payload_for orig_img
                   remaining i s t r Hint Ht Hr).
        destruct (IH (S i) (advance batch_count payload_for orig_img i r s))
          as (m & Hm & Hok & Hcases); [exact Ht|].
        exists (S m). split; [lia|]. split.
        { intros j Hj. destruct (Nat.eq_dec j i) as [->|Hne].
          - split; [exact Hint | exists r; exact Hr].
          - apply Hok. lia. }
        cbn [Orchestrator.advance_many]. unfold items_of, infos_of. rewrite Hr.
        replace (fst r, snd r) with r by (destruct r; reflexivity).
        replace (i + S m)%nat with (S i + m)%nat by lia.
        cbn zeta in Hcases.
        destruct Hcases as [[-> H]|[[Hlt [Hc H]]|[Hlt [Hc [Ha H]]]]].
        -- left. split; [reflexivity | exact H].
        -- right; left. split; [lia|]. split; [exact Hc | exact H].
        -- right; right. split; [lia|]. split; [exact Hc|]. split; [exact Ha | exact H].
      * exists 0%nat. split; [lia|]. split; [intros j Hj; lia|].
        right; right. rewrite Nat.add_0_r. split; [lia|]. split; [exact Hint|].
        split; [exact Hr|].
        apply (batch_loop_fails remaining i s t Hint Ht Hr).
Qed.

(** The shared state after [k] iterations that went through. *)
Lemma advance_many_globals (k i : nat) (s : run_state) :
  globals (advance_many env batch_count payload_for orig_img k i s) =
  match k with
  | O => globals s
  | S k' => set_CURRENT_BATCH_INDEX (Z.of_nat (i + k')) (globals s)
  end.
Proof.
  revert i s. induction k as [|k IH]; intros i s; [reflexivity|].
  cbn [Orchestrator.advance_many]. rewrite IH.
  destruct k as [|k]; cbn [Orchestrator.advance globals].
  - rewrite Nat.add_0_r. reflexivity.
  - unfold set_CURRENT_BATCH_INDEX.
    cbn [CURRENT_TASK CURRENT_BATCH_INDEX TOTAL_BATCH_COUNT EXPECTED_JOB_COUNT
         LAST_BATCH_INDEX LAST_PROGRESS].
    replace (S i + k)%nat with (i + S k)%nat by lia. reflexivity.
Qed.

End Loop.

(** The anatomy of a call that runs to its end.  Either there is no
    picture; or the preparation of the picture raises; or the loop runs [k]
    iterations that go through and then reaches the end of the range, sees
    the cancellation, or fails on request [k]. *)
Lemma finished_anatomy (which : task) (env : environment) (g : BatchState)
      (image_path : option string) (hint : string) (bc : Z)
      (label : denoise_label) (m : ad_mode) (base_seed : Z) (s : run_state) :
  start which env g image_path hint bc label m base_seed = finished s ->
  let pf := payload_of which (translate_and_optimize_prompt (translate env) hint)
                       label m base_seed in
  (image_path = None /\
   requests s = [] /\ yields s = [terminal_no_image] /\ logs s = [] /\
   globals s = final_globals which bc m 0 /\ gen_images s = []) \/
  (image_path <> None /\ prepared env = None /\
   requests s = [] /\ yields s = [terminal_reset] /\
   logs s = [log_start which; log_aborted OtherException] /\
   globals s = final_globals which bc m 0 /\ gen_images s = []) \/
  (exists b64 w h orig k,
      image_path <> None /\ prepared env = Some (b64, w, h, orig) /\
      (k <= Z.to_nat bc)%nat /\
      (forall j, (j < k)%nat -> goes_through env j) /\
      gen_images s = flat_map (items_of env) (seq 0 k) /\
      parameters_list s = flat_map (infos_of env) (seq 0 k) /\
      ((k = Z.to_nat bc /\
        requests s = map (pf (b64, w, h)) (seq 0 k) /\
        yields s = map (progress_yield env bc orig) (seq 0 k) ++
                   [terminal_results env orig k] /\
        logs s = [log_start which;
                  log_done (List.length (flat_map (items_of env) (seq 0 k)))] /\
        globals s = final_globals which bc m k) \/
       ((k < Z.to_nat bc)%nat /\ interrupted_before env k = true /\
        requests s = map (pf (b64, w, h)) (seq 0 k) /\
        yields s = map (progress_yield env bc orig) (seq 0 k) ++
                   [terminal_results env orig k] /\
        logs s = [log_start which; log_cancelled;
                  log_done (List.length (flat_map (items_of env) (seq 0 k)))] /\
        globals s = final_globals which bc m k) \/
       ((k < Z.to_nat bc)%nat /\ interrupted_before env k = false /\
        answer_items (response env k) = None /\
        requests s = map (pf (b64, w, h)) (seq 0 (S k)) /\
        yields s = map (progress_yield env bc orig) (seq 0 k) ++ [terminal_reset] /\
        logs s = [log_start which; log_aborted (failure_of (response env k))] /\
        globals s = final_globals which bc m (S k)))).
Proof.
  intros H pf.
  destruct (finished_cases _ _ _ _ _ _ _ _ _ _ H) as (Hup & Hmodel & [[Hnone ->]|[Hsome ->]]).
  - left. split; [exact Hnone|]. destruct which; repeat split; reflexivity.
  - unfold generate. fold pf.
    destruct (prepared env) as [[[[b64 w] h] orig]|] eqn:Hprep.
    2:{ right; left. split; [exact Hsome|]. split; [reflexivity|].
        destruct which; repeat split; reflexivity. }
    right; right.
    set (s0 := mkRun (init_state which bc m) [] [] [] [] [log_start which]).
    destruct (batch_loop_shape env bc (pf (b64, w, h)) orig (Z.to_nat bc) 0 s0 which)
      as (k & Hk & Hok & Hcases); [destruct which; reflexivity|].
    destruct (advance_many_spec env bc (pf (b64, w, h)) orig k 0 s0)
      as (Ht & Hg & Hp & Hr & Hl & Hy).
    pose proof (advance_many_globals env bc (pf (b64, w, h)) orig k 0 s0) as HG.
    cbn zeta in *. cbn [Nat.add] in *.
    assert (HG' : forall t i,
               set_CURRENT_TASK t
                 (set_CURRENT_BATCH_INDEX i
                    (globals (advance_many env bc (pf (b64, w, h)) orig k 0 s0))) =
               mkBatchState t i bc (EXPECTED_JOB_COUNT (init_state which bc m))
                            (-1) 0%float).
    { intros t i. rewrite HG. destruct k, which; reflexivity. }
    assert (HG0 : set_CURRENT_TASK None
                    (globals (advance_many env bc (pf (b64, w, h)) orig k 0 s0)) =
                  final_globals which bc m k).
    { rewrite HG. unfold final_globals. destruct k as [|k], which; cbn;
        try reflexivity; rewrite Nat.sub_0_r; reflexivity. }
    exists b64, w, h, orig, k.
    split; [exact Hsome|]. split; [reflexivity|]. split; [exact Hk|].
    split; [intros j Hj; apply Hok; lia|].
    destruct Hcases as [[Hkn Hloop]|[[Hlt [Hc Hloop]]|[Hlt [Hc [Ha Hloop]]]]];
      rewrite Hloop;
      cbn [conclude fst snd add_log with_globals yield post globals gen_images
           parameters_list requests yields logs];
      rewrite ?Hg, ?Hp, ?Hr, ?Hl, ?Hy;
      cbn [s0 gen_images parameters_list requests yields logs app];
      (split; [reflexivity|]); (split; [reflexivity|]).
    + left. split; [exact Hkn|]. repeat split; try reflexivity. exact HG0.
    + right; left. split; [exact Hlt|]. split; [exact Hc|].
      repeat split; try reflexivity.
      unfold set_CURRENT_TASK at 1. cbn [CURRENT_BATCH_INDEX TOTAL_BATCH_COUNT
        EXPECTED_JOB_COUNT LAST_BATCH_INDEX LAST_PROGRESS set_CURRENT_TASK].
      exact HG0.
    + right; right. split; [exact Hlt|]. split; [exact Hc|]. split; [exact Ha|].
      split; [rewrite seq_S, map_app; reflexivity|].
      repeat split; try reflexivity.
      rewrite HG'. unfold final_globals. rewrite Nat.sub_succ, Nat.sub_0_r. reflexivity.
Qed.

(** X1.  Whatever the server answers and whenever the user interrupts, a
    call of either generator that returns leaves no active task and ends
    with exactly one yield that re-enables the trigger button: the results
    collected so far, the reset of the error handler, or the answer to a call
    without picture.  Every yield before it keeps the button disabled. *)
Theorem run_ends_idle (which : task) (env : environment) (g : BatchState)
        (image_path : option string) (hint : string) (bc : Z)
        (label : denoise_label) (m : ad_mode) (base_seed : Z) (s : run_state) :
  start which env g image_path hint bc label m base_seed = finished s ->
  CURRENT_TASK (globals s) = None /\
  exists earlier last,
    yields s = earlier ++ [last] /\
    interactive (out_button last) = true /\
    (last = terminal_no_image \/ last = terminal_reset \/
     exists orig,
       last = mkYield (gen_images s) (params_list (parameters_list s))
                      (Some true) (Some orig) button_run) /\
    forall y, In y earlier -> interactive (out_button y) = false.
Proof.
  intro H.
  destruct (finished_anatomy _ _ _ _ _ _ _ _ _ _ H)
    as [(_ & _ & Hy & _ & Hg & _)|[(_ & _ & _ & Hy & _ & Hg & _)|
        (b64 & w & h & orig & k & _ & _ & _ & _ & Hgen & Hpar & Hcases)]].
  - split; [rewrite Hg; reflexivity|].
    exists [], terminal_no_image. rewrite Hy.
    repeat split; auto. intros y [].
  - split; [rewrite Hg; reflexivity|].
    exists [], terminal_reset. rewrite Hy.
    repeat split; auto. intros y [].
  - assert (Hprog : forall y, In y (map (progress_yield env bc orig) (seq 0 k)) ->
                              interactive (out_button y) = false).
    { intros y Hin. apply in_map_iff in Hin. destruct Hin as (j & <- & _).
      reflexivity. }
    destruct Hcases as [(_ & _ & Hy & _ & Hg)|[(_ & _ & _ & Hy & _ & Hg)|
                         (_ & _ & _ & _ & Hy & _ & Hg)]];
      (split; [rewrite Hg; reflexivity|]);
      eexists; eexists; (split; [exact Hy|]); (split; [reflexivity|]);
      (split; [|exact Hprog]).
    + right; right. exists orig. unfold terminal_results. rewrite Hgen, Hpar.
      reflexivity.
    + right; right. exists orig. unfold terminal_results. rewrite Hgen, Hpar.
      reflexivity.
    + right; left. reflexivity.
Qed.

Lemma run_ends_idle_witness :
  CURRENT_TASK (globals sample_run) = None.
Proof.
  refine (proj1 (run_ends_idle cleanup env_ok initial_state
                   (Some "rough.png"%string) EmptyString 3 label_medium ad_off
                   100 sample_run _)).
  vm_compute. reflexivity.
Defined.

(** The requests and the shared state a call that returns leaves behind. *)
Lemma finished_state (which : task) (env : environment) (g : BatchState)
        (image_path : option string) (hint : string) (bc : Z)
        (label : denoise_label) (m : ad_mode) (base_seed : Z) (s : run_state) :
  start which env g image_path hint bc label m base_seed = finished s ->
  (List.length (requests s) <= Z.to_nat bc)%nat /\
  globals s = final_globals which bc m (List.length (requests s)) /\
  (bc <= 0 -> requests s = [] /\ gen_images s = []).
Proof.
  intro H.
  destruct (finished_anatomy _ _ _ _ _ _ _ _ _ _ H)
    as [(Hnone & Hr & _ & _ & Hg & Hgen)|[(_ & _ & Hr & _ & _ & Hg & Hgen)|
        (b64 & w & h & orig & k & _ & _ & Hk & _ & Hgen & _ & Hcases)]].
  - rewrite Hr, Hg. cbn [List.length]. split; [lia|]. split; [reflexivity|].
    intros _. split; [reflexivity | exact Hgen].
  - rewrite Hr, Hg. cbn [List.length]. split; [lia|]. split; [reflexivity|].
    intros _. split; [reflexivity | exact Hgen].
  - destruct Hcases as [(_ & Hr & _ & _ & Hg)|[(_ & _ & Hr & _ & _ & Hg)|
                         (Hlt & _ & _ & Hr & _ & _ & Hg)]];
      rewrite Hr, Hg, length_map, length_seq;
      (split; [lia|]); (split; [reflexivity|]); intro Hbc;
      replace (Z.to_nat bc) with 0%nat in * by lia;
      try lia;
      assert (k = 0%nat) by lia; subst k; rewrite Hgen; split; reflexivity.
Qed.

(** X2.  A call that returns has issued at most [batch_count] requests, and
    the shared state it leaves is the one assigned at its start with the
    task cleared and [CURRENT_BATCH_INDEX] at the index of the last request
    issued (0 when there was none): the generators never write
    [TOTAL_BATCH_COUNT], [EXPECTED_JOB_COUNT], [LAST_BATCH_INDEX] or
    [LAST_PROGRESS] again, and a batch count of 0 or less issues nothing. *)
Theorem run_final_state (which : task) (env : environment) (g : BatchState)
        (image_path : option string) (hint : string) (bc : Z)
        (label : denoise_label) (m : ad_mode) (base_seed : Z) (s : run_state) :
  start which env g image_path hint bc label m base_seed = finished s ->
  (List.length (requests s) <= Z.to_nat bc)%nat /\
  globals s = final_globals which bc m (List.length (requests s)) /\
  (bc <= 0 -> requests s = [] /\ gen_images s = []).
Proof. apply finished_state. Qed.

Lemma run_final_state_witness :
  globals sample_run = final_globals cleanup 3 ad_off 3.
Proof.
  refine (proj1 (proj2 (run_final_state cleanup env_ok initial_state
                   (Some "rough.png"%string) EmptyString 3 label_medium ad_off
                   100 sample_run _))).
  vm_compute. reflexivity.
Defined.

(** An answer brings as many parameter texts as pictures. *)
Lemma answer_items_aligned (r : http_outcome) :
  List.length (match answer_items r with Some x => fst x | None => [] end) =
  List.length (match answer_items r with Some x => snd x | None => [] end).
Proof.
  destruct (answer_items r) as [[items infos]|] eqn:E; [|reflexivity].
  cbn [fst snd]. unfold answer_items in E.
  destruct r as [|code missing body]; [discriminate|].
  destruct ((code =? 422) && missing); [discriminate|].
  destruct (code =? 200); [|discriminate].
  destruct body as [json|]; cbn [Py.bind] in E; [|discriminate].
  destruct (images json) as [l|]; [|injection E as <- <-; reflexivity].
  assert (G : forall l gen params x,
             collect_images (infotext json) l gen params = Some x ->
             List.length gen = List.length params ->
             List.length (fst x) = List.length (snd x)).
  { clear. induction l as [|b rest IH]; intros gen params x H Hlen;
      cbn [collect_images] in H.
    - injection H as <-. exact Hlen.
    - destruct (decoded b); cbn [Py.bind] in H; [|discriminate].
      destruct (infotext json); cbn [Py.bind] in H; [|discriminate].
      apply IH in H; [exact H|]. rewrite !length_app, Hlen. reflexivity. }
  apply (G _ _ _ _ E). reflexivity.
Qed.

Lemma flat_map_aligned (env : environment) (a n : nat) :
  List.length (flat_map (infos_of env) (seq a n)) =
  List.length (flat_map (items_of env) (seq a n)).
Proof.
  revert a. induction n as [|n IH]; intro a; [reflexivity|].
  cbn [seq flat_map]. rewrite !length_app, IH. f_equal.
  symmetry. apply answer_items_aligned.
Qed.

(** X3.  In every yield of a call that returns, the parameter texts match
    the pictures one to one; so for every picture of the gallery the lookup
    of [get_selected_param] finds its text instead of the fallback message.
    After a call without picture, where the slot holds the empty string, it
    gives the fallback for every index. *)
Theorem yields_aligned (which : task) (env : environment) (g : BatchState)
        (image_path : option string) (hint : string) (bc : Z)
        (label : denoise_label) (m : ad_mode) (base_seed : Z) (s : run_state) :
  start which env g image_path hint bc label m base_seed = finished s ->
  forall y, In y (yields s) ->
    aligned y /\
    (forall index, 0 <= index < Z.of_nat (List.length (out_images y)) ->
                   exists text,
                     Gallery.get_selected_param (out_params y) index = Some text) /\
    (forall index, index < 0 \/ Z.of_nat (List.length (out_images y)) <= index ->
                   Gallery.get_selected_param (out_params y) index = None).
Proof.
  intros H y Hin.
  assert (Hal : aligned y).
  { destruct (finished_anatomy _ _ _ _ _ _ _ _ _ _ H)
      as [(_ & _ & Hy & _)|[(_ & _ & _ & Hy & _)|
          (b64 & w & h & orig & k & _ & _ & _ & _ & _ & _ & Hcases)]].
    - rewrite Hy in Hin. destruct Hin as [<-|[]]. reflexivity.
    - rewrite Hy in Hin. destruct Hin as [<-|[]]. reflexivity.
    - assert (Hprog : forall y, In y (map (progress_yield env bc orig) (seq 0 k)) ->
                                aligned y).
      { intros y' Hin'. apply in_map_iff in Hin'. destruct Hin' as (j & <- & _).
        unfold aligned, progress_yield. cbn [out_params out_images].
        apply flat_map_aligned. }
      destruct Hcases as [(_ & _ & Hy & _)|[(_ & _ & _ & Hy & _)|
                           (_ & _ & _ & _ & Hy & _)]];
        rewrite Hy in Hin; apply in_app_or in Hin;
        destruct Hin as [Hin|[<-|[]]]; try (apply Hprog; exact Hin);
        try reflexivity;
        unfold aligned, terminal_results; cbn [out_params out_images];
        apply flat_map_aligned. }
  split; [exact Hal|].
  unfold aligned in Hal. unfold Gallery.get_selected_param.
  destruct (out_params y) as [l|str].
  - rewrite <- Hal. split.
    + intros index Hi.
      destruct (nth_error l (Z.to_nat index)) as [text|] eqn:E.
      * exists text.
        destruct (Nat.eqb_spec (List.length l) 0) as [H0|_]; [lia|].
        destruct (Z.leb_spec 0 index); [|lia].
        destruct (Z.ltb_spec index (Z.of_nat (List.length l))); [|lia].
        reflexivity.
      * apply nth_error_None in E. lia.
    + intros index Hi.
      destruct (negb (List.length l =? 0)%nat); [|reflexivity].
      destruct (Z.leb_spec 0 index); cbn [andb]; [|reflexivity].
      destruct (Z.ltb_spec index (Z.of_nat (List.length l))); [lia | reflexivity].
  - rewrite Hal. cbn [List.length]. split; [intros index Hi; lia | reflexivity].
Qed.

Lemma yields_aligned_witness :
  exists text,
    Gallery.get_selected_param
      (params_list ["Steps: 20"%string; "Steps: 20"%string]) 1 = Some text.
Proof.
  refine (proj1 (proj2 (yields_aligned cleanup env_ok initial_state
                   (Some "rough.png"%string) EmptyString 3 label_medium ad_off
                   100 sample_run _
                   (mkYield [item_path "0.png"; item_path "1.png"]
                            (params_list ["Steps: 20"%string; "Steps: 20"%string])
                            (Some true) (Some 0%nat) (button_generating 2 3)) _))
                1 _).
  - vm_compute. reflexivity.
  - vm_compute. right. left. reflexivity.
  - cbn. lia.
Defined.

(** The requests of a call that returns are built by one payload function
    over consecutive indexes. *)
Lemma requests_of_finished (which : task) (env : environment) (g : BatchState)
      (image_path : option string) (hint : string) (bc : Z)
      (label : denoise_label) (m : ad_mode) (base_seed : Z) (s : run_state) :
  start which env g image_path hint bc label m base_seed = finished s ->
  exists img r,
    requests s =
    map (payload_of which (translate_and_optimize_prompt (translate env) hint)
                    label m base_seed img)
        (seq 0 r).
Proof.
  intro H.
  destruct (finished_anatomy _ _ _ _ _ _ _ _ _ _ H)
    as [(_ & Hr & _)|[(_ & _ & Hr & _)|
        (b64 & w & h & orig & k & _ & _ & _ & _ & _ & _ & Hcases)]].
  - exists (EmptyString, 0, 0), 0%nat. exact Hr.
  - exists (EmptyString, 0, 0), 0%nat. exact Hr.
  - destruct Hcases as [(_ & Hr & _)|[(_ & _ & Hr & _)|(_ & _ & _ & Hr & _)]];
      eexists; eexists; exact Hr.
Qed.

(** X4.  All the requests of one call are the same request but for the
    seed: picture, prompts, strength, size, sampler settings and detection
    passes do not change within a batch. *)
Theorem requests_differ_by_seed_only
        (which : task) (env : environment) (g : BatchState)
        (image_path : option string) (hint : string) (bc : Z)
        (label : denoise_label) (m : ad_mode) (base_seed : Z) (s : run_state)
        (p q : payload) :
  start which env g image_path hint bc label m base_seed = finished s ->
  In p (requests s) -> In q (requests s) ->
  with_seed 0 p = with_seed 0 q /\
  steps p = 20 /\ cfg_scale p = 7 /\ batch_size p = 1.
Proof.
  intros H Hp Hq.
  destruct (requests_of_finished _ _ _ _ _ _ _ _ _ _ H) as (img & r & Hr).
  rewrite Hr in Hp, Hq.
  apply in_map_iff in Hp. destruct Hp as (i & <- & _).
  apply in_map_iff in Hq. destruct Hq as (j & <- & _).
  destruct which; repeat split; reflexivity.
Qed.

Lemma requests_differ_by_seed_only_witness :
  with_seed 0 (cleanup_payload (quality_tags, negative_tags) 0.4%float ad_off 100
                               ("b64"%string, 512, 512) 0) =
  with_seed 0 (cleanup_payload (quality_tags, negative_tags) 0.4%float ad_off 100
                               ("b64"%string, 512, 512) 2).
Proof.
  refine (proj1 (requests_differ_by_seed_only cleanup env_ok initial_state
                   (Some "rough.png"%string) EmptyString 3 label_medium ad_off
                   100 sample_run _ _ _ _ _)).
  - vm_compute. reflexivity.
  - vm_compute. left. reflexivity.
  - vm_compute. right. right. left. reflexivity.
Defined.

(** X5.  The stage count a call announces to the poll is the one its
    requests ask for: in every request, one base pass plus one pass per
    detector equals the [EXPECTED_JOB_COUNT] the call assigned and left in
    the shared state. *)
Theorem expected_job_count_matches_requests
        (which : task) (env : environment) (g : BatchState)
        (image_path : option string) (hint : string) (bc : Z)
        (label : denoise_label) (m : ad_mode) (base_seed : Z) (s : run_state)
        (p : payload) :
  start which env g image_path hint bc label m base_seed = finished s ->
  In p (requests s) ->
  EXPECTED_JOB_COUNT (globals s) = Z.of_nat (1 + detectors p) /\
  1 <= EXPECTED_JOB_COUNT (globals s) <= 3.
Proof.
  intros H Hp.
  destruct (finished_state _ _ _ _ _ _ _ _ _ _ H) as (_ & Hg & _).
  destruct (requests_of_finished _ _ _ _ _ _ _ _ _ _ H) as (img & r & Hr).
  rewrite Hr in Hp. apply in_map_iff in Hp. destruct Hp as (i & <- & _).
  rewrite Hg. destruct which; [destruct m|]; split; cbn; lia.
Qed.

Lemma expected_job_count_matches_requests_witness :
  EXPECTED_JOB_COUNT (globals (run_of (start face_fix env_ok initial_state
       (Some "face.png"%string) EmptyString 2 label_strong ad_off 7))) =
  Z.of_nat (1 + detectors (face_payload (quality_tags, negative_tags) 0.7%float 7
                                        ("b64"%string, 512, 512) 1)).
Proof.
  refine (proj1 (expected_job_count_matches_requests face_fix env_ok initial_state
                   (Some "face.png"%string) EmptyString 2 label_strong ad_off 7
                   (run_of (start face_fix env_ok initial_state
                              (Some "face.png"%string) EmptyString 2 label_strong
                              ad_off 7)) _ _ _)).
  - vm_compute. reflexivity.
  - vm_compute. right. left. reflexivity.
Defined.

(** X6.  The prompts of every request: the negative prompt is the fixed
    list of tags, and the prompt ends with the quality tags.  An empty hint
    gives the quality tags alone; otherwise they follow the translation of
    the hint, or the hint itself when the translator raises, and a comma. *)
Theorem request_prompts
        (which : task) (env : environment) (g : BatchState)
        (image_path : option string) (hint : string) (bc : Z)
        (label : denoise_label) (m : ad_mode) (base_seed : Z) (s : run_state)
        (p : payload) :
  start which env g image_path hint bc label m base_seed = finished s ->
  In p (requests s) ->
  negative_prompt p = negative_tags /\
  (hint = EmptyString -> prompt p = quality_tags) /\
  (hint <> EmptyString ->
   forall en, translate env hint = Some en ->
              prompt p = (en ++ ", " ++ quality_tags)%string) /\
  (hint <> EmptyString ->
   translate env hint = None ->
   prompt p = (hint ++ ", " ++ quality_tags)%string).
Proof.
  intros H Hp.
  destruct (requests_of_finished _ _ _ _ _ _ _ _ _ _ H) as (img & r & Hr).
  rewrite Hr in Hp. apply in_map_iff in Hp. destruct Hp as (i & <- & _).
  assert (Hneg : snd (translate_and_optimize_prompt (translate env) hint) =
                 negative_tags).
  { unfold translate_and_optimize_prompt. destruct (String.eqb hint ""); reflexivity. }
  assert (Hpr : forall x, prompt (payload_of which x label m base_seed img i) = fst x)
    by (destruct which; reflexivity).
  assert (Hng : forall x, negative_prompt (payload_of which x label m base_seed img i) =
                          snd x)
    by (destruct which; reflexivity).
  rewrite Hpr, Hng. split; [exact Hneg|].
  unfold translate_and_optimize_prompt.
  destruct (String.eqb_spec hint ""%string) as [He|Hne].
  - split; [reflexivity|]. split; intro; contradiction.
  - split; [intro; contradiction|]. split.
    + intros _ en ->. reflexivity.
    + intros _ ->. reflexivity.
Qed.

Lemma request_prompts_witness :
  negative_prompt (cleanup_payload (quality_tags, negative_tags) 0.4%float ad_off
                                   100 ("b64"%string, 512, 512) 1) = negative_tags.
Proof.
  refine (proj1 (request_prompts cleanup env_ok initial_state
                   (Some "rough.png"%string) EmptyString 3 label_medium ad_off
                   100 sample_run _ _ _)).
  - vm_compute. reflexivity.
  - vm_compute. right. left. reflexivity.
Defined.

(** X7.  A batch whose requests are all answered and that nobody
    interrupts: exactly [batch_count] requests are issued, in index order;
    each is followed by an incremental yield of the results so far; the
    terminal yield carries the items of all the answers and re-enables the
    button; the end is logged with the number of pictures, and the shared
    state ends with no task and the index of the last picture. *)
Theorem complete_batch
        (which : task) (env : environment) (g : BatchState)
        (path hint : string) (bc : Z) (label : denoise_label) (m : ad_mode)
        (base_seed : Z) (b64 : string) (w h : Z) (orig : image) :
  server_up env = true ->
  model_check env <> model_missing ->
  prepared env = Some (b64, w, h, orig) ->
  (forall j, (j < Z.to_nat bc)%nat -> goes_through env j) ->
  exists s,
    start which env g (Some path) hint bc label m base_seed = finished s /\
    requests s =
      map (payload_of which (translate_and_optimize_prompt (translate env) hint)
                      label m base_seed (b64, w, h))
          (seq 0 (Z.to_nat bc)) /\
    yields s =
      map (progress_yield env bc orig) (seq 0 (Z.to_nat bc)) ++
      [terminal_results env orig (Z.to_nat bc)] /\
    gen_images s = flat_map (items_of env) (seq 0 (Z.to_nat bc)) /\
    logs s = [log_start which; log_done (List.length (gen_images s))] /\
    globals s = final_globals which bc m (Z.to_nat bc).
Proof.
  intros Hup Hmodel Hprep Hok.
  eexists. split.
  { apply (start_runs_loop which env g path hint bc label m base_seed
             b64 w h orig Hup Hmodel Hprep). }
  set (pf := payload_of which _ label m base_seed (b64, w, h)).
  set (s0 := mkRun (init_state which bc m) [] [] [] [] [log_start which]).
  set (n := Z.to_nat bc) in *.
  replace (batch_loop env bc pf orig n 0 s0)
    with (batch_loop env bc pf orig (n + 0) 0 s0) by (rewrite Nat.add_0_r; reflexivity).
  rewrite (batch_loop_advance_many env bc pf orig n 0 0 s0 which).
  2:{ intros j Hj. apply Hok. lia. }
  2:{ destruct which; reflexivity. }
  destruct (advance_many_spec env bc pf orig n 0 s0)
    as (Ht & Hg & Hp & Hr & Hl & Hy).
  pose proof (advance_many_globals env bc pf orig n 0 s0) as HG.
  cbn zeta in *. cbn [Nat.add batch_loop].
  cbn [conclude fst snd add_log with_globals yield globals gen_images
       parameters_list requests yields logs].
  rewrite Hg, Hp, Hr, Hl, Hy, HG.
  cbn [s0 gen_images parameters_list requests yields logs app].
  repeat split; try reflexivity.
  unfold final_globals. destruct n as [|n'], which; cbn;
    try reflexivity; rewrite Nat.sub_0_r; reflexivity.
Qed.

Lemma complete_batch_witness :
  exists s,
    sample_call = finished s /\
    List.length (requests s) = 3%nat /\
    gen_images s = [item_path "0.png"; item_path "1.png"; item_path "2.png"] /\
    globals s = final_globals cleanup 3 ad_off 3.
Proof.
  destruct (complete_batch cleanup env_ok initial_state "rough.png"%string
              EmptyString 3 label_medium ad_off 100 "b64"%string 512 512 0%nat)
    as (s & Hs & Hr & _ & Hg & _ & HG).
  - reflexivity.
  - discriminate.
  - reflexivity.
  - intros j Hj. split; [reflexivity | eexists; reflexivity].
  - exists s. split; [exact Hs|]. rewrite Hr, Hg, HG.
    repeat split; reflexivity.
Defined.

(** X8.  Whatever makes an iteration fail -- the request raises, the answer
    has another status than 200, its body cannot be read, a picture cannot be
    decoded or the parameter text cannot be read -- the batch stops there:
    no request follows, the task is cleared, the exception is logged, and the
    terminal yield is the reset with empty lists, the hidden information
    button and the button re-enabled. *)
Theorem any_failure_aborts_batch
        (which : task) (env : environment) (g : BatchState)
        (path hint : string) (bc : Z) (label : denoise_label) (m : ad_mode)
        (base_seed : Z) (k : nat) (b64 : string) (w h : Z) (orig : image) :
  server_up env = true ->
  model_check env <> model_missing ->
  prepared env = Some (b64, w, h, orig) ->
  (k < Z.to_nat bc)%nat ->
  (forall j, (j < k)%nat -> goes_through env j) ->
  interrupted_before env k = false ->
  answer_items (response env k) = None ->
  exists s,
    start which env g (Some path) hint bc label m base_seed = finished s /\
    requests s =
      map (payload_of which (translate_and_optimize_prompt (translate env) hint)
                      label m base_seed (b64, w, h))
          (seq 0 (S k)) /\
    yields s = map (progress_yield env bc orig) (seq 0 k) ++ [terminal_reset] /\
    logs s = [log_start which; log_aborted (failure_of (response env k))] /\
    globals s = final_globals which bc m (S k).
Proof.
  intros Hup Hmodel Hprep Hk Hok Hint Hans.
  eexists. split.
  { apply (start_runs_loop which env g path hint bc label m base_seed
             b64 w h orig Hup Hmodel Hprep). }
  set (pf := payload_of which _ label m base_seed (b64, w, h)).
  set (s0 := mkRun (init_state which bc m) [] [] [] [] [log_start which]).
  replace (Z.to_nat bc) with (k + S (Z.to_nat bc - S k))%nat by lia.
  rewrite (batch_loop_advance_many env bc pf orig k _ 0 s0 which).
  2:{ intros j Hj. apply Hok. lia. }
  2:{ destruct which; reflexivity. }
  destruct (advance_many_spec env bc pf orig k 0 s0)
    as (Ht & Hg & Hp & Hr & Hl & Hy).
  pose proof (advance_many_globals env bc pf orig k 0 s0) as HG.
  cbn zeta in *. cbn [Nat.add] in *.
  rewrite (batch_loop_fails env bc pf orig _ k _ which Hint).
  2:{ rewrite Ht. destruct which; reflexivity. }
  2:{ exact Hans. }
  cbn [conclude fst snd add_log with_globals yield post globals gen_images
       parameters_list requests yields logs].
  rewrite Hr, Hl, Hy, HG.
  cbn [s0 gen_images parameters_list requests yields logs app].
  rewrite seq_S, map_app.
  repeat split; try reflexivity.
  unfold final_globals. rewrite Nat.sub_succ, Nat.sub_0_r.
  destruct k, which; reflexivity.
Qed.

Lemma any_failure_aborts_batch_witness :
  let env := mkEnv true model_ready (fun _ => None)
                   (Some ("b64"%string, 512, 512, 0%nat)) (fun _ => false)
                   (fun i => if Nat.eqb i 1 then http_response 200 false None
                             else answer_ok i) in
  exists s,
    start face_fix env initial_state (Some "face.png"%string) EmptyString 3
          label_weak ad_off 7 = finished s /\
    List.length (requests s) = 2%nat /\
    logs s = [log_start face_fix; log_aborted OtherException] /\
    globals s = final_globals face_fix 3 ad_off 2.
Proof.
  intro env.
  destruct (any_failure_aborts_batch face_fix env initial_state
              "face.png"%string EmptyString 3 label_weak ad_off 7 1
              "b64"%string 512 512 0%nat)
    as (s & Hs & Hr & _ & Hl & HG).
  - reflexivity.
  - discriminate.
  - reflexivity.
  - vm_compute. lia.
  - intros j Hj. assert (j = 0%nat) as -> by lia.
    split; [reflexivity | eexists; reflexivity].
  - reflexivity.
  - reflexivity.
  - exists s. split; [exact Hs|]. rewrite Hr, Hl, HG.
    repeat split; reflexivity.
Defined.

End OrchestratorExtra.

(* ================================================================== *)
(** * [poll_status]: what a poll leaves alone and what it shows *)
(* ================================================================== *)

Module PollExtra.

Import Poll PyFacts PollSpec.
Local Open Scope Z_scope.

(** ** Truncation of a stored percentage *)

Lemma digits2_pos_bound (m : positive) : Z.pos m < 2 ^ Z.pos (digits2_pos m).
Proof.
  induction m as [m IH|m IH|]; cbn [digits2_pos].
  - rewrite Pos2Z.inj_succ, Z.pow_succ_r by lia. lia.
  - rewrite Pos2Z.inj_succ, Z.pow_succ_r by lia. lia.
  - reflexivity.
Qed.

(** A valid mantissa has at most 53 bits. *)
Lemma valid_mantissa_bound (s : bool) (m : positive) (e : Z) :
  valid_binary (S754_finite s m e) = true -> Z.pos m < 2 ^ 53.
Proof.
  cbn [valid_binary]. unfold bounded, canonical_mantissa, fexp.
  intro H. apply andb_prop in H. destruct H as [H _].
  apply Z.eqb_eq in H.
  pose proof (digits2_pos_bound m) as D.
  assert (Z.pos (digits2_pos m) <= 53) as L.
  { change prec with 53 in H. lia. }
  eapply Z.lt_le_trans; [exact D|].
  apply Z.pow_le_mono_r; lia.
Qed.

(** Comparison of two positive finite numbers. *)
Lemma SFleb_finite (m m' : positive) (e e' : Z) :
  SFleb (S754_finite false m e) (S754_finite false m' e') = true ->
  e < e' \/ (e = e' /\ Z.pos m <= Z.pos m').
Proof.
  unfold SFleb, SFcompare.
  destruct (Z.compare_spec e e') as [E|E|E].
  - change (PosDef.Pos.compare_cont Eq m m') with (Pos.compare m m').
    destruct (Pos.compare_spec m m'); intro K; try discriminate; right; lia.
  - left. exact E.
  - discriminate.
Qed.

(** [int(x)] is defined and within [0, 99] for every float in [0, 99]. *)
Lemma int_of_float_percent (x : float) :
  (0 <=? x)%float = true -> (x <=? 99)%float = true ->
  exists n, Py.int_of_float x = Some n /\ 0 <= n <= 99.
Proof.
  intros H0 H99.
  rewrite FloatAxioms.leb_spec in H0, H99.
  pose proof (Prim2SF_valid x) as V.
  unfold Py.int_of_float.
  change (Prim2SF 0) with (S754_zero false) in H0.
  change (Prim2SF 99) with (S754_finite false 6966505673588736 (-46)) in H99.
  destruct (Prim2SF x) as [s|s| |s m e].
  - exists 0; split; [reflexivity|lia].
  - destruct s; discriminate.
  - discriminate.
  - destruct s; [discriminate|].
    pose proof (valid_mantissa_bound false m e V) as B.
    eexists. split; [reflexivity|].
    apply SFleb_finite in H99.
    replace (2 ^ 53) with 9007199254740992 in B by (vm_compute; reflexivity).
    rewrite Z.shiftl_div_pow2 by lia.
    assert (140737488355328 <= 2 ^ (- e) \/ (e = -46 /\ 2 ^ (- e) = 70368744177664)) as P.
    { destruct H99 as [E|[E _]].
      - left. replace 140737488355328 with (2 ^ 47) by (vm_compute; reflexivity).
        apply Z.pow_le_mono_r; lia.
      - right. split; [exact E|]. rewrite E. vm_compute. reflexivity. }
    assert (0 < 2 ^ (- e)) as Q by (destruct P as [P|[_ P]]; lia).
    split; [apply Z.div_pos; lia|].
    apply Z.lt_succ_r, Z.div_lt_upper_bound; [exact Q|].
    (destruct P as [P|[P1 P]]; [|rewrite P]; lia).
Qed.

(** A float in [0, 99] that is not above 0 truncates to 0. *)
Lemma int_of_float_zero (x : float) :
  (0 <=? x)%float = true -> (0 <? x)%float = false ->
  Py.int_of_float x = Some 0.
Proof.
  intros H0 Hn.
  rewrite FloatAxioms.leb_spec in H0. rewrite FloatAxioms.ltb_spec in Hn.
  unfold Py.int_of_float.
  change (Prim2SF 0) with (S754_zero false) in H0, Hn.
  destruct (Prim2SF x) as [s|s| |s m e]; try reflexivity;
    try (destruct s; discriminate); discriminate.
Qed.

(** X9.  One poll, whatever the server answers: the task, the index of the
    current picture, the batch size and the expected stage count are left as
    they are (the poll only writes its own two trackers).  When the poll
    shows no progress suffix the whole state is unchanged; when it shows one,
    the suffix names picture [CURRENT_BATCH_INDEX + 1] of
    [TOTAL_BATCH_COUNT] with an integer percent between 0 and 99, which is
    the truncation of the stored percent, and the picture tracker now equals
    the current index. *)
Theorem poll_frame (g : BatchState) (r : poll_reply) :
  let g' := fst (poll_progress g r) in
  CURRENT_TASK g' = CURRENT_TASK g /\
  CURRENT_BATCH_INDEX g' = CURRENT_BATCH_INDEX g /\
  TOTAL_BATCH_COUNT g' = TOTAL_BATCH_COUNT g /\
  EXPECTED_JOB_COUNT g' = EXPECTED_JOB_COUNT g /\
  match snd (poll_progress g r) with
  | None => g' = g
  | Some info =>
      LAST_BATCH_INDEX g' = CURRENT_BATCH_INDEX g /\
      info_image info = CURRENT_BATCH_INDEX g + 1 /\
      info_total info = TOTAL_BATCH_COUNT g /\
      Py.int_of_float (LAST_PROGRESS g') = Some (info_percent info) /\
      0 <= info_percent info <= 99
  end.
Proof.
  destruct r as [|data]; cbn [poll_progress fst snd].
  { repeat split. }
  unfold progress_step.
  destruct (_ || _); [|repeat split].
  destruct (current_image_progress _ _ _ _) as [p|]; [|repeat split].
  cbn [Py.bind]. destruct (raw_percent g p) as [raw|]; [|repeat split].
  cbn [Py.bind fst snd].
  destruct (aggregate_LAST_PROGRESS_range g raw) as [H0 H99].
  destruct (int_of_float_percent _ H0 H99) as (n & E & Hn).
  rewrite E. cbn [info_image info_total info_percent].
  repeat split; try reflexivity; try lia.
  cbn [aggregate LAST_BATCH_INDEX].
  destruct (Z.eqb_spec (LAST_BATCH_INDEX g) (CURRENT_BATCH_INDEX g)); congruence.
Qed.

(** X10.  The percentage of the button gradient.  From a state whose stored
    percent is in [0, 99] (which every writer of [LAST_PROGRESS] ensures),
    after any poll the gradient percentage is a defined integer between 0
    and 100; it is at most 99 while a task is running, and with no task it is
    100 as soon as the stored percent is above 0 and 0 otherwise. *)
Theorem gradient_percent_range (g : BatchState) (r : poll_reply) :
  (0 <=? LAST_PROGRESS g)%float = true ->
  (LAST_PROGRESS g <=? 99)%float = true ->
  let g' := fst (poll_progress g r) in
  exists v,
    val g' = Some v /\ 0 <= v <= 100 /\
    (CURRENT_TASK g <> None -> v <= 99) /\
    (CURRENT_TASK g = None ->
     v = if (0 <? LAST_PROGRESS g')%float then 100 else 0).
Proof.
  intros H0 H99 g'.
  destruct (poll_progress_LAST_PROGRESS_range g r (conj H0 H99)) as [K0 K99].
  fold g' in K0, K99.
  assert (CURRENT_TASK g' = CURRENT_TASK g) as T.
  { subst g'. destruct r as [|data]; cbn [poll_progress fst]; [reflexivity|].
    unfold progress_step.
    destruct (_ || _); [|reflexivity].
    destruct (current_image_progress _ _ _ _) as [p|]; [|reflexivity].
    cbn [Py.bind]. destruct (raw_percent g p) as [raw|]; reflexivity. }
  destruct (int_of_float_percent _ K0 K99) as (n & E & Hn).
  unfold val. rewrite T.
  destruct (CURRENT_TASK g) as [t|].
  - exists n. rewrite E.
    split; [reflexivity|]. split; [lia|]. split; [intros _; lia|].
    intro C; discriminate C.
  - destruct (0 <? LAST_PROGRESS g')%float eqn:P.
    + exists 100.
      split; [reflexivity|]. split; [lia|].
      split; [intro C; contradiction C; reflexivity | reflexivity].
    + exists 0. rewrite (int_of_float_zero _ K0 P).
      split; [reflexivity|]. split; [lia|].
      split; [intros _; lia | reflexivity].
Qed.

Lemma gradient_percent_range_witness :
  exists v,
    val (fst (poll_progress face_fix_second_image
                (Progress200 (mkProgress (Some 0.75%float) (Some 2) (Some 1)))))
    = Some v /\ 0 <= v <= 99.
Proof.
  destruct (gradient_percent_range face_fix_second_image
              (Progress200 (mkProgress (Some 0.75%float) (Some 2) (Some 1))))
    as (v & E & R & A & _).
  - reflexivity.
  - reflexivity.
  - exists v. split; [exact E|]. split; [apply R | apply A; discriminate].
Defined.

End PollExtra.

(* ================================================================== *)
(** * The helpers: port search, log window, settings, gallery, resizing *)
(* ================================================================== *)

Module PortsSpec.

Import Ports.
Local Open Scope Z_scope.

Lemma scan_spec (bind_ok : Z -> bool) (fuel : nat) (port : Z) :
  match scan bind_ok fuel port with
  | Some p =>
      port <= p < port + Z.of_nat fuel /\ bind_ok p = true /\
      forall q, port <= q < p -> bind_ok q = false
  | None => forall q, port <= q < port + Z.of_nat fuel -> bind_ok q = false
  end.
Proof.
  revert port. induction fuel as [|fuel IH]; intro port; cbn [scan].
  - intros q Hq. lia.
  - destruct (bind_ok port) eqn:B.
    + split; [lia|]. split; [exact B|]. intros q Hq. lia.
    + specialize (IH (port + 1)).
      destruct (scan bind_ok fuel (port + 1)) as [p|].
      * destruct IH as (R & Bp & L). split; [lia|]. split; [exact Bp|].
        intros q Hq. destruct (Z.eq_dec q port) as [->|N]; [exact B|].
        apply L. lia.
      * intros q Hq. destruct (Z.eq_dec q port) as [->|N]; [exact B|].
        apply IH. lia.
Qed.

(** X11.  The port search always answers.  When some port from
    [start_port] up to 65534 can be bound, the answer is the lowest such
    port; when none can (in particular when [start_port] is 65535 or more,
    where nothing is tried), the answer is [start_port] itself, a port that
    was not found free. *)
Theorem find_available_port_least (bind_ok : Z -> bool) (start_port : Z) :
  0 <= start_port ->
  exists p,
    find_available_port bind_ok start_port = Some p /\
    ((start_port <= p < 65535 /\ bind_ok p = true /\
      forall q, start_port <= q < p -> bind_ok q = false) \/
     (p = start_port /\
      forall q, start_port <= q < 65535 -> bind_ok q = false)).
Proof.
  intro H. unfold find_available_port.
  destruct (Z.ltb_spec start_port 0) as [N|_]; [lia|].
  pose proof (scan_spec bind_ok (Z.to_nat (65535 - start_port)) start_port) as S.
  destruct (scan bind_ok (Z.to_nat (65535 - start_port)) start_port) as [p|].
  - exists p. split; [reflexivity|]. left.
    destruct S as (R & B & L). split; [lia|]. split; assumption.
  - exists start_port. split; [reflexivity|]. right. split; [reflexivity|].
    intros q Hq. apply S. lia.
Qed.

Lemma find_available_port_least_witness :
  find_available_port (fun p => 8002 <=? p) 8000 = Some 8002.
Proof.
  destruct (find_available_port_least (fun p => 8002 <=? p) 8000)
    as (p & E & [(R & B & L) | (P & L)]).
  - lia.
  - rewrite E. f_equal. apply Z.leb_le in B.
    destruct (Z.eq_dec p 8002) as [Q|Q]; [exact Q|].
    assert (8000 <= 8002 < p) as K by lia.
    specialize (L 8002 K). discriminate L.
  - assert (8000 <= 8002 < 65535) as K by lia.
    specialize (L 8002 K). discriminate L.
Defined.

End PortsSpec.

Module LogsSpec.

Import Logs.
Local Open Scope list_scope.

(** X12.  The log is a sliding window: after any sequence of calls, a log
    that held at most 100 entries holds the last 100 of its entries followed
    by the entries of the calls that are recorded (all of them in developer
    mode, otherwise those whose message does not contain an ignored phrase),
    in call order; it never holds more than 100. *)
Theorem log_window (DEV_MODE : bool) (SYSTEM_LOGS : list string)
        (calls : list (string * string)) :
  (List.length SYSTEM_LOGS <= 100)%nat ->
  let all := SYSTEM_LOGS ++ entries DEV_MODE calls in
  add_logs DEV_MODE SYSTEM_LOGS calls = skipn (List.length all - 100) all /\
  (List.length (add_logs DEV_MODE SYSTEM_LOGS calls) <= 100)%nat.
Proof.
  revert SYSTEM_LOGS.
  induction calls as [|[t m] rest IH]; intros logs H; cbn zeta.
  - unfold entries. cbn [filter map add_logs]. rewrite app_nil_r.
    replace (List.length logs - 100)%nat with 0%nat by lia.
    split; [reflexivity | exact H].
  - cbn [add_logs]. unfold entries, add_log. cbn [filter map fst snd].
    destruct (DEV_MODE || negb (is_ignored m)) eqn:K.
    + cbn [map fst snd].
      change (map (fun c => entry (fst c) (snd c))
                (filter (fun c => DEV_MODE || negb (is_ignored (snd c))) rest))
        with (entries DEV_MODE rest).
      assert (List.length (logs ++ [entry t m]) = S (List.length logs)) as Len.
      { rewrite length_app. cbn. lia. }
      destruct (Nat.ltb_spec 100 (List.length (logs ++ [entry t m]))) as [Over|Fits].
      * destruct (logs ++ [entry t m]) as [|x L] eqn:EL; [cbn in Over; lia|].
        cbn [tl]. cbn [List.length] in Len, Over.
        assert (List.length L = 100%nat) as HL by lia.
        destruct (IH L) as [I1 I2]; [lia|]. cbn zeta in I1.
        split; [|exact I2]. rewrite I1.
        replace (logs ++ entry t m :: entries DEV_MODE rest)
          with ((logs ++ [entry t m]) ++ entries DEV_MODE rest)
          by (rewrite <- app_assoc; reflexivity).
        rewrite EL. cbn [app List.length]. rewrite !length_app, HL.
        replace (S (100 + List.length (entries DEV_MODE rest)) - 100)%nat
          with (S (100 + List.length (entries DEV_MODE rest) - 100))%nat by lia.
        reflexivity.
      * destruct (IH (logs ++ [entry t m])) as [I1 I2]; [lia|]. cbn zeta in I1.
        split; [|exact I2]. rewrite I1. rewrite <- app_assoc. reflexivity.
    + change (map (fun c => entry (fst c) (snd c))
                (filter (fun c => DEV_MODE || negb (is_ignored (snd c))) rest))
        with (entries DEV_MODE rest).
      apply IH. exact H.
Qed.

Lemma log_window_witness :
  add_logs false (repeat "old"%string 100)
           [("12:00:00"%string, hd EmptyString IGNORED_LOGS);
            ("12:00:01"%string, "done"%string)]
  = repeat "old"%string 99 ++ ["[12:00:01] done"%string].
Proof.
  assert (List.length (repeat "old"%string 100) <= 100)%nat as H
    by (rewrite repeat_length; apply Nat.le_refl).
  rewrite (proj1 (log_window false (repeat "old"%string 100)
                    [("12:00:00"%string, hd EmptyString IGNORED_LOGS);
                     ("12:00:01"%string, "done"%string)] H)).
  vm_compute. reflexivity.
Defined.

End LogsSpec.

Module SettingsSpec.

Import Settings.
Local Open Scope string_scope.
Local Open Scope list_scope.

(** ** Strings *)

Lemma append_assoc (a b c : string) : ((a ++ b) ++ c = a ++ (b ++ c))%string.
Proof. induction a as [|x a IH]; cbn; [reflexivity | rewrite IH; reflexivity]. Qed.

Lemma split_cons (sep : Ascii.ascii) (s : string) :
  exists h t, PyStr.split sep s = h :: t.
Proof.
  destruct s as [|c rest]; cbn [PyStr.split]; [eauto|].
  destruct (Ascii.eqb c sep); [eauto|].
  destruct (PyStr.split sep rest); eauto.
Qed.

(** Joining the parts of a split with the separator gives the string back. *)
Lemma join_split (sep : Ascii.ascii) (s : string) :
  PyStr.join (String sep EmptyString) (PyStr.split sep s) = s.
Proof.
  induction s as [|c rest IH]; [reflexivity|].
  cbn [PyStr.split].
  destruct (split_cons sep rest) as (h & t & E). rewrite E in *.
  destruct (Ascii.eqb_spec c sep) as [->|N].
  - change (PyStr.join (String sep EmptyString) (EmptyString :: h :: t))
      with (String sep (PyStr.join (String sep EmptyString) (h :: t))).
    rewrite IH. reflexivity.
  - destruct t; rewrite <- IH; reflexivity.
Qed.

(** No part of a split contains the separator. *)
Lemma split_no_sep (sep : Ascii.ascii) (s : string) :
  Forall (fun p => PyStr.has_char sep p = false) (PyStr.split sep s).
Proof.
  induction s as [|c rest IH]; cbn [PyStr.split].
  - constructor; [reflexivity | constructor].
  - destruct (split_cons sep rest) as (h & t & E). rewrite E in *.
    destruct (Ascii.eqb c sep) eqn:C.
    + constructor; [reflexivity | exact IH].
    + inversion IH as [|? ? Hh Ht]; subst. constructor; [|exact Ht].
      cbn [PyStr.has_char]. rewrite C. exact Hh.
Qed.

Lemma last_Forall {A : Type} (P : A -> Prop) (l : list A) (d : A) :
  l <> [] -> Forall P l -> P (last l d).
Proof.
  induction l as [|x l IH]; [congruence|]. intros _ F.
  inversion F as [|? ? Hx Hl]; subst.
  destruct l as [|y l]; [exact Hx|].
  apply IH; [discriminate | exact Hl].
Qed.

(** The parts before the last, joined, then the separator and the last part:
    the whole join. *)
Lemma join_removelast_last (sep : string) (parts : list string) :
  (2 <= List.length parts)%nat ->
  (PyStr.join sep (removelast parts) ++ sep ++ last parts EmptyString)%string
  = PyStr.join sep parts.
Proof.
  induction parts as [|a parts IH]; [cbn; lia|].
  destruct parts as [|b parts]; [cbn; lia|]. intros _.
  destruct parts as [|c parts].
  - reflexivity.
  - change (removelast (a :: b :: c :: parts))
      with (a :: removelast (b :: c :: parts)).
    change (last (a :: b :: c :: parts) EmptyString)
      with (last (b :: c :: parts) EmptyString).
    assert (exists x r, removelast (b :: c :: parts) = x :: r) as (x & r & E).
    { change (removelast (b :: c :: parts)) with (b :: removelast (c :: parts)).
      eauto. }
    assert (PyStr.join sep (a :: removelast (b :: c :: parts))
            = (a ++ sep ++ PyStr.join sep (removelast (b :: c :: parts)))%string)
      as ->.
    { rewrite E. reflexivity. }
    change (PyStr.join sep (a :: b :: c :: parts))
      with (a ++ sep ++ PyStr.join sep (b :: c :: parts))%string.
    rewrite <- IH by (cbn; lia).
    rewrite !append_assoc. reflexivity.
Qed.

(** ** The dictionary *)

Lemma get_set_same (d : dict) (k v : string) : get (set d k v) k = Some v.
Proof.
  induction d as [|[k' v'] d IH]; cbn [set get].
  - rewrite String.eqb_refl. reflexivity.
  - destruct (String.eqb k' k) eqn:E; cbn [get].
    + rewrite String.eqb_refl. reflexivity.
    + rewrite E. exact IH.
Qed.

Lemma get_set_other (d : dict) (k k' v : string) :
  k <> k' -> get (set d k v) k' = get d k'.
Proof.
  intro N. induction d as [|[k0 v0] d IH]; cbn [set get].
  - destruct (String.eqb_spec k k'); [contradiction | reflexivity].
  - destruct (String.eqb_spec k0 k) as [->|N0]; cbn [get].
    + destruct (String.eqb_spec k k'); [contradiction | reflexivity].
    + rewrite IH. reflexivity.
Qed.

(** X13.  A configuration file of the older layout, holding ["sd_url"] and
    no ["sd_host"], whose address has at least two colons: the loaded host
    and port are the address cut at its last colon, so that host, colon and
    port give the address back, the port holds no colon, and the URL the
    program then talks to is the stored address; the other three settings
    are read as from any file. *)
Theorem legacy_url_migration (defaults : settings) (default_output_dir : string)
        (loaded : dict) (sd_url : string) :
  get loaded "sd_url" = Some sd_url ->
  get loaded "sd_host" = None ->
  (3 <= List.length (PyStr.split ":"%char sd_url))%nat ->
  let s := load_settings defaults (Some loaded) in
  (sd_host s ++ ":" ++ sd_port s)%string = sd_url /\
  PyStr.has_char ":"%char (sd_port s) = false /\
  CURRENT_SD_URL (update_globals default_output_dir s) = sd_url /\
  sd_webui_path s = override loaded "sd_webui_path" (sd_webui_path defaults) /\
  boot_args s = override loaded "boot_args" (boot_args defaults) /\
  output_dir s = override loaded "output_dir" (output_dir defaults).
Proof.
  intros Hurl Hhost Hlen.
  cbn zeta. unfold load_settings, migrate. rewrite Hurl, Hhost.
  destruct (Nat.leb_spec 3 (List.length (PyStr.split ":"%char sd_url)))
    as [_|C]; [|lia].
  set (parts := PyStr.split ":"%char sd_url) in *.
  set (d1 := set loaded "sd_port" (last parts EmptyString)).
  set (d2 := set d1 "sd_host" (PyStr.join ":" (removelast parts))).
  cbn [sd_host sd_port sd_webui_path boot_args output_dir update_globals
       CURRENT_SD_URL].
  assert (override d2 "sd_host" (sd_host defaults)
          = PyStr.join ":" (removelast parts)) as Eh.
  { unfold override, d2. rewrite get_set_same. reflexivity. }
  assert (override d2 "sd_port" (sd_port defaults) = last parts EmptyString)
    as Ep.
  { unfold override, d2, d1.
    rewrite get_set_other by discriminate.
    rewrite get_set_same. reflexivity. }
  assert (forall k cur, k <> "sd_host" -> k <> "sd_port" ->
                        override d2 k cur = override loaded k cur) as Eo.
  { intros k cur N1 N2. unfold override, d2, d1.
    rewrite get_set_other by congruence.
    rewrite get_set_other by congruence. reflexivity. }
  rewrite Eh, Ep.
  assert ((PyStr.join ":" (removelast parts) ++ ":" ++ last parts EmptyString)%string
          = sd_url) as J.
  { rewrite join_removelast_last by lia. apply join_split. }
  split; [exact J|].
  split.
  { apply (last_Forall (fun p => PyStr.has_char ":"%char p = false)).
    - intro E. rewrite E in Hlen. cbn in Hlen. lia.
    - apply split_no_sep. }
  split; [exact J|].
  repeat split; apply Eo; discriminate.
Qed.

Lemma legacy_url_migration_witness :
  let s := load_settings (DEFAULT_SETTINGS "/opt/webui")
             (Some [("sd_url", "http://192.168.0.5:7861");
                    ("output_dir", "/tmp/out")]) in
  sd_host s = "http://192.168.0.5" /\ sd_port s = "7861" /\
  (sd_host s ++ ":" ++ sd_port s)%string = "http://192.168.0.5:7861".
Proof.
  intro s.
  split; [vm_compute; reflexivity|].
  split; [vm_compute; reflexivity|].
  refine (proj1 (legacy_url_migration (DEFAULT_SETTINGS "/opt/webui") "/home/out"
                   [("sd_url", "http://192.168.0.5:7861");
                    ("output_dir", "/tmp/out")]
                   "http://192.168.0.5:7861" _ _ _)).
  - reflexivity.
  - reflexivity.
  - vm_compute. lia.
Defined.

(** Stripping the trailing slashes leaves no trailing slash. *)
Lemma rstrip_ends_with (c : Ascii.ascii) (s : string) :
  PyStr.ends_with c (PyStr.rstrip c s) = false.
Proof.
  induction s as [|d rest IH]; [reflexivity|].
  cbn [PyStr.rstrip].
  destruct (PyStr.rstrip c rest) as [|x y] eqn:E.
  - destruct (Ascii.eqb d c) eqn:D; [reflexivity|].
    cbn [PyStr.ends_with]. exact D.
  - change (PyStr.ends_with c (String d (String x y)))
      with (PyStr.ends_with c (String x y)).
    exact IH.
Qed.

(** X14.  Saving then loading.  What a successful save writes is read back
    by [load_settings] as exactly the settings that were saved, whatever the
    defaults are, and leads to the globals the save installed; the saved host
    never ends with a slash, so the server URL is the host, a colon and the
    port. *)
Theorem save_load_round_trip (strip : string -> string) (defaults : settings)
        (default_output_dir host port webui_path args out : string)
        (file : dict) (g : globals) :
  save_settings_to_file strip true default_output_dir host port webui_path
                        args out = Some (file, g) ->
  load_settings defaults (Some file)
  = new_settings strip host port webui_path args out /\
  update_globals default_output_dir (load_settings defaults (Some file)) = g /\
  PyStr.ends_with "/"%char (SD_HOST g) = false /\
  CURRENT_SD_URL g = (SD_HOST g ++ ":" ++ SD_PORT g)%string.
Proof.
  unfold save_settings_to_file. intro H. injection H as <- <-.
  assert (load_settings defaults
            (Some (to_dict (new_settings strip host port webui_path args out)))
          = new_settings strip host port webui_path args out) as E.
  { reflexivity. }
  rewrite E. split; [reflexivity|]. split; [reflexivity|].
  split; [|reflexivity].
  cbn [update_globals SD_HOST new_settings sd_host].
  apply rstrip_ends_with.
Qed.

Lemma save_load_round_trip_witness :
  load_settings (DEFAULT_SETTINGS "/opt/webui")
    (Some (to_dict (new_settings (fun s => s) "http://10.0.0.2//" "7861"
                                 "/srv/webui" "--api" "")))
  = mkSettings "http://10.0.0.2" "7861" "/srv/webui" "--api" "".
Proof.
  refine (proj1 (save_load_round_trip (fun s => s) (DEFAULT_SETTINGS "/opt/webui")
                   "/home/out" "http://10.0.0.2//" "7861" "/srv/webui" "--api" ""
                   _ _ _)).
  reflexivity.
Defined.

End SettingsSpec.

Module GallerySpec.

Import Gallery.
Local Open Scope string_scope.

Lemma after_first_app (sep : Ascii.ascii) (header rest : string) :
  PyStr.has_char sep header = false ->
  PyStr.after_first sep (header ++ String sep rest) = Some rest.
Proof.
  induction header as [|c header IH]; cbn [append PyStr.after_first PyStr.has_char].
  - intros _. rewrite Ascii.eqb_refl. reflexivity.
  - intro H. apply orb_false_elim in H. destruct H as [C H].
    rewrite C. exact (IH H).
Qed.

Lemma after_first_none (sep : Ascii.ascii) (s : string) :
  PyStr.has_char sep s = false -> PyStr.after_first sep s = None.
Proof.
  induction s as [|c s IH]; cbn [PyStr.after_first PyStr.has_char].
  - reflexivity.
  - intro H. apply orb_false_elim in H. destruct H as [C H].
    rewrite C. exact (IH H).
Qed.

(** X15.  The text handed to the base64 decoder: what follows the first
    comma of the string (a data URL loses its header, later commas are
    kept), and the string itself when it holds no comma. *)
Theorem b64_payload_spec (header rest : string) :
  PyStr.has_char ","%char header = false ->
  b64_payload (header ++ String ","%char rest) = rest /\
  b64_payload header = header.
Proof.
  unfold b64_payload. intro H.
  rewrite (after_first_app _ _ _ H), (after_first_none _ _ H).
  split; reflexivity.
Qed.

Lemma b64_payload_spec_witness :
  b64_payload "data:image/png;base64,iVBOR,w0KGgo" = "iVBOR,w0KGgo".
Proof.
  refine (proj1 (b64_payload_spec "data:image/png;base64" "iVBOR,w0KGgo" _)).
  reflexivity.
Defined.

End GallerySpec.

Module ResizeSpec.

Import Resize.
Local Open Scope Z_scope.

(** X16.  Whenever the preparation of a picture succeeds, the width and the
    height announced to the server are multiples of 8; a picture that was
    resampled has both sides at least 8 (one whose scaled side falls below 8
    makes the resampling raise, and the preparation fails); and a picture is
    sent without resampling only when both of its sides already are multiples
    of 8. *)
Theorem resize_multiple_of_8 (w h max_size new_w new_h : Z) (resampled : bool) :
  resize_for_sd w h max_size = Some (new_w, new_h, resampled) ->
  new_w mod 8 = 0 /\ new_h mod 8 = 0 /\
  (resampled = true -> 8 <= new_w /\ 8 <= new_h) /\
  (resampled = false -> w mod 8 = 0 /\ h mod 8 = 0).
Proof.
  unfold resize_for_sd.
  destruct (Py.int_of_float _) as [a|]; [|discriminate].
  cbn [Py.bind].
  destruct (Py.int_of_float _) as [b|]; [|discriminate].
  cbn [Py.bind].
  assert (forall x, (x - x mod 8) mod 8 = 0) as M8.
  { intro x. apply Z.mod_divide; [lia|]. exists (x / 8).
    pose proof (Z.div_mod x 8). lia. }
  destruct (_ && _) eqn:G; [discriminate|].
  intro H. injection H as <- <- <-.
  split; [apply M8|]. split; [apply M8|]. split.
  - intro R. rewrite R in G. cbn [andb] in G.
    apply orb_false_elim in G. destruct G as [Ga Gb].
    apply Z.ltb_ge in Ga, Gb.
    pose proof (M8 a) as Ma. pose proof (M8 b) as Mb.
    apply Z.mod_divide in Ma; [|lia]. apply Z.mod_divide in Mb; [|lia].
    destruct Ma as [ka Ka]. destruct Mb as [kb Kb]. lia.
  - intro R. apply orb_false_elim in R. destruct R as [R Hh].
    apply orb_false_elim in R. destruct R as [_ Hw].
    apply negb_false_iff, Z.eqb_eq in Hw, Hh. split; assumption.
Qed.

Lemma resize_multiple_of_8_witness :
  resize_for_sd 3000 2001 2048 = Some (2048, 1360, true) /\
  2048 mod 8 = 0 /\ 1360 mod 8 = 0 /\ 8 <= 2048 /\ 8 <= 1360.
Proof.
  assert (resize_for_sd 3000 2001 2048 = Some (2048, 1360, true)) as E
    by (vm_compute; reflexivity).
  split; [exact E|].
  destruct (resize_multiple_of_8 3000 2001 2048 2048 1360 true E)
    as (A & B & C & _).
  split; [exact A|]. split; [exact B|]. apply C. reflexivity.
Defined.

(** A picture of 5 by 5 pixels cannot be prepared: both new sides are 0. *)
Example resize_small_picture_fails :
  resize_for_sd 5 5 2048 = None /\ resize_for_sd 8 8 2048 = Some (8, 8, false).
Proof. split; vm_compute; reflexivity. Qed.

End ResizeSpec.
